(** * actstream.actions: follow bookkeeping and the action recorder

    A shallow embedding of [actstream/actions.py].  The relational store,
    the signal log and the mail gateway are one explicit [World]; every
    function of the module is a computation over it that either returns
    or raises, and keeps the effects it made before raising (as Python
    does). *)

From Stdlib Require Import ZArith.
From stdpp Require Import base option list strings gmap fin_maps.

(** ** Values *)

(** A model instance, as far as this module looks at it: the label of its
    model class (what [ContentType.objects.get_for_model] keys on) and its
    primary key. *)
Record Obj := { model : string; pk : Z }.

#[global] Instance Obj_eq_dec : EqDecision Obj.
Proof. solve_decision. Defined.

(** A user: primary key, [u.email] and [u.get_profile().email_notification]. *)
Record User := { user_pk : Z; email : string; email_notification : bool }.

#[global] Instance User_eq_dec : EqDecision User.
Proof. solve_decision. Defined.

(** The label of the user model; a user passed where an entity is expected
    (the sender of an action) is an instance of it. *)
Definition User_model : string := "auth.user".

Definition user_obj (u : User) : Obj :=
  {| model := User_model; pk := user_pk u |}.

(** Text the template engine made is unicode: a sequence of code points. *)
Abbreviation unicode := (list N).

(** Python values that travel in keyword arguments. *)
Inductive pyval :=
| VNone
| VBool (b : bool)
| VInt (z : Z)
| VStr (s : string)
| VDatetime (t : Z)
| VObj (o : Obj)
| VSignal.

(** [bool(v)] *)
Definition truthy (v : pyval) : bool :=
  match v with
  | VNone => false
  | VBool b => b
  | VInt z => negb (z =? 0)%Z
  | VStr s => negb (String.eqb s "")
  | VDatetime _ | VObj _ | VSignal => true
  end.

(** [ContentType.objects.get_for_model(obj)] *)
Definition get_for_model (o : Obj) : string := model o.

(** ** Rows *)

(** A row of the [Follow] table (its primary key is the key of the table). *)
Record Follow := {
  user_id : Z;
  object_id : Z;
  content_type : string;
  actor_only : bool;
  send_email : bool
}.

#[global] Instance Follow_eq_dec : EqDecision Follow.
Proof. solve_decision. Defined.

(** An [Action] instance. *)
Record Action := {
  actor_content_type : string;
  actor_object_id : Z;
  verb : string;
  public : bool;
  description : pyval;
  timestamp : pyval;
  target_object_id : option Z;
  target_content_type : option string;
  action_object_object_id : option Z;
  action_object_content_type : option string;
  data : option (gmap string pyval)
}.

(** One entry of a [send_mass_mail] batch:
    [(subject, message, from_addr, recipient_list)].  [from_addr = None]
    stands for the [{}] that [getattr(..., "CONTACT_EMAIL", {})] falls back
    to. *)
Record Mail := {
  subject : unicode;
  message : unicode;
  from_addr : option string;
  recipient_list : list string
}.

(** One [action.send(sender, verb=..., **named)]. *)
Record Sent := {
  sent_sender : Obj;
  sent_verb : string;
  sent_named : gmap string pyval
}.

(** ** The world *)

Record World := {
  follows : gmap positive Follow;   (* Follow table, by primary key *)
  actions : list Action;            (* Action table, in insertion order *)
  signals : list Sent;              (* action signals sent so far *)
  outbox : list (list Mail)         (* one batch per send_mass_mail call *)
}.

Definition set_follows (t : gmap positive Follow) (w : World) : World :=
  {| follows := t; actions := actions w;
     signals := signals w; outbox := outbox w |}.

Definition add_action (a : Action) (w : World) : World :=
  {| follows := follows w; actions := actions w ++ [a];
     signals := signals w; outbox := outbox w |}.

Definition add_signal (s : Sent) (w : World) : World :=
  {| follows := follows w; actions := actions w;
     signals := signals w ++ [s]; outbox := outbox w |}.

Definition add_batch (b : list Mail) (w : World) : World :=
  {| follows := follows w; actions := actions w;
     signals := signals w; outbox := outbox w ++ [b] |}.

(** ** Exceptions and the computation monad *)

Inductive exn :=
| UnregisteredEntityError
| KeyError (k : string)
| AttributeError
| MultipleObjectsReturned
| IntegrityError.

#[global] Instance exn_eq_dec : EqDecision exn.
Proof. solve_decision. Defined.

(** A computation runs in a world and ends in a world, with a value or an
    exception. *)
Definition M (A : Type) : Type := World → (exn + A) * World.

#[global] Instance M_ret : MRet M := λ A a w, (inr a, w).

#[global] Instance M_bind : MBind M := λ A B f m w,
  match m w with
  | (inl e, w') => (inl e, w')
  | (inr a, w') => f a w'
  end.

Definition raise {A : Type} (e : exn) : M A := λ w, (inl e, w).

Definition get_world : M World := λ w, (inr w, w).

Definition modify (f : World → World) : M unit := λ w, (inr (), f w).

(** Outcome and final world of a run. *)
Definition outcome {A : Type} (r : (exn + A) * World) : exn + A := r.1.
Definition world_of {A : Type} (r : (exn + A) * World) : World := r.2.

Definition raises {A : Type} (e : exn) (r : (exn + A) * World) : Prop :=
  outcome r = inl e.

(** ** Text *)

(** [s.lstrip()] and [s.rstrip()] of a unicode [s], for the whitespace
    test [isspace] of the interpreter. *)
Fixpoint lstrip (isspace : N → bool) (s : unicode) : unicode :=
  match s with
  | c :: s' => if isspace c then lstrip isspace s' else s
  | [] => []
  end.

Definition rstrip (isspace : N → bool) (s : unicode) : unicode :=
  reverse (lstrip isspace (reverse s)).

(** The whitespace test of a Python 2 interpreter ([Py_UNICODE_ISSPACE]):
    the code points of bidirectional type WS, B or S, or of category Zs. *)
Definition py_isspace (c : N) : bool :=
  ((9 <=? c) && (c <=? 13) || (28 <=? c) && (c <=? 32)
   || (c =? 133) || (c =? 160) || (c =? 5760) || (c =? 6158)
   || (8192 <=? c) && (c <=? 8202)
   || (c =? 8232) || (c =? 8233) || (c =? 8239) || (c =? 8287)
   || (c =? 12288))%N.

(** The code points of a text written in ASCII. *)
Definition utext (s : string) : unicode :=
  (λ c, Ascii.N_of_ascii c) <$> String.list_ascii_of_string s.

(** ** Query primitives of the store *)

(** [Follow.objects.filter(...)], evaluated: the rows with their keys. *)
Definition select (P : Follow → bool) (t : gmap positive Follow)
  : list (positive * Follow) :=
  filter (λ ir : positive * Follow, P ir.2) (map_to_list t).

(** [Follow.objects.filter(...).delete()] *)
Definition delete_where (P : Follow → bool) (t : gmap positive Follow)
  : gmap positive Follow :=
  filter (λ ir : positive * Follow, negb (P ir.2)) t.

(** The lookup on the three columns that name a (user, entity) pair. *)
Definition targets (uid oid : Z) (ct : string) (r : Follow) : bool :=
  bool_decide (user_id r = uid)
  && bool_decide (object_id r = oid)
  && bool_decide (content_type r = ct).

(** [filter(user=user, object_id=obj.pk, content_type=ct)] *)
Definition follows_of (user : User) (obj : Obj) (r : Follow) : bool :=
  targets (user_pk user) (pk obj) (get_for_model obj) r.

(** A lookup on all five columns, as [get_or_create] is called. *)
Definition same_row (row r : Follow) : bool := bool_decide (r = row).

(** [filter(user=user)] *)
Definition owned_by (user : User) (r : Follow) : bool :=
  bool_decide (user_id r = user_pk user).

(** [f.send_email = enable] *)
Definition with_send_email (b : bool) (r : Follow) : Follow :=
  {| user_id := user_id r; object_id := object_id r;
     content_type := content_type r; actor_only := actor_only r;
     send_email := b |}.

(** [setattr(newaction, '%s_object_id' % opt, pk)] and
    [setattr(newaction, '%s_content_type' % opt, ct)] for the two values
    [opt] takes in [action_handler]. *)
Inductive Opt := target | action_object.

Definition opt_name (opt : Opt) : string :=
  match opt with
  | target => "target"
  | action_object => "action_object"
  end.

Definition set_reference (opt : Opt) (i : Z) (ct : string) (a : Action)
  : Action :=
  match opt with
  | target =>
      {| actor_content_type := actor_content_type a;
         actor_object_id := actor_object_id a;
         verb := verb a; public := public a;
         description := description a; timestamp := timestamp a;
         target_object_id := Some i;
         target_content_type := Some ct;
         action_object_object_id := action_object_object_id a;
         action_object_content_type := action_object_content_type a;
         data := data a |}
  | action_object =>
      {| actor_content_type := actor_content_type a;
         actor_object_id := actor_object_id a;
         verb := verb a; public := public a;
         description := description a; timestamp := timestamp a;
         target_object_id := target_object_id a;
         target_content_type := target_content_type a;
         action_object_object_id := Some i;
         action_object_content_type := Some ct;
         data := data a |}
  end.

(** [newaction.data = kwargs] *)
Definition set_data (d : gmap string pyval) (a : Action) : Action :=
  {| actor_content_type := actor_content_type a;
     actor_object_id := actor_object_id a;
     verb := verb a; public := public a;
     description := description a; timestamp := timestamp a;
     target_object_id := target_object_id a;
     target_content_type := target_content_type a;
     action_object_object_id := action_object_object_id a;
     action_object_content_type := action_object_content_type a;
     data := Some d |}.

(** [kwargs.pop(k, d)]: the value and the dictionary without the key. *)
Definition pop (k : string) (d : pyval) (kwargs : gmap string pyval)
  : pyval * gmap string pyval :=
  (default d (kwargs !! k), delete k kwargs).

(** ** What the module takes from its surroundings *)

(** Settings and collaborators that [actions.py] imports and that are not
    part of the module. *)
Record Env := {
  (** Modelled from the spec: the entity registry behind
      [check_actionable_model] ([actstream.exceptions] is not in the
      source): [isRegistered(entityKind) -> bool], by model label. *)
  isRegistered : string → bool;
  (** [actstream.settings.USE_JSONFIELD] *)
  USE_JSONFIELD : bool;
  (** [django.conf.settings.CONTACT_EMAIL], when it is set *)
  CONTACT_EMAIL : option string;
  (** Modelled from the spec: the declaration of the [Follow] model
      ([actstream.models]) is not in the source; whether its table carries
      a uniqueness constraint on (user, content_type, object_id) is left
      open here.  The spec's store has none. *)
  unique_together : bool;
  (** [django.template.loader.render_to_string(name, {"action": a})] *)
  render_to_string : string → Action → unicode;
  (** the whitespace test of [unicode.rstrip()], as the Unicode database
      of the interpreter has it *)
  isspace : N → bool;
  (** [actstream.models.action_followers] (not in the source), reading
      the Follow table *)
  action_followers : gmap positive Follow → Action → list User;
  (** what [now()] returns during the call *)
  now : Z
}.

(** [for x in l: body], threading the local variables the body assigns. *)
Fixpoint for_in {A S : Type} (l : list A) (body : A → S → M S) (s : S)
  : M S :=
  match l with
  | [] => mret s
  | x :: l' => s' ← body x s; for_in l' body s'
  end.

(** [v.pk] and the like, which only a model instance has. *)
Definition as_obj (v : pyval) : M Obj :=
  match v with
  | VObj o => mret o
  | _ => raise AttributeError
  end.

(** [bool(n)] for a count. *)
Definition bool_of_count (n : nat) : bool := negb (n =? 0)%nat.

Definition subject_template : string :=
  "email_notification/message_subject.txt".
Definition body_template : string :=
  "email_notification/message_body.txt".

(** ** The module *)

Section Actions.

Variable env : Env.

(** Modelled from the spec: [check_actionable_model]
    ([actstream.exceptions]) is not in the source.  It raises
    [UnregisteredEntityError] for an entity whose kind the registry does
    not recognize; a value that is no model instance has no registered
    kind. *)
Definition check_actionable_model (v : pyval) : M unit :=
  match v with
  | VObj o =>
      if isRegistered env (model o) then mret ()
      else raise UnregisteredEntityError
  | _ => raise UnregisteredEntityError
  end.

(** [Follow.objects.create] with the columns of [row]: a new row under a
    key of the store's choosing, unless the table is declared unique on
    the pair and the pair is there (the store then refuses the insert).
    The module does not decide the key; here it is one the table does not
    use. *)
Definition create (row : Follow) : M (positive * Follow) := λ w,
  let t := follows w in
  if unique_together env
     && bool_of_count
          (length (select (targets (user_id row) (object_id row)
                                   (content_type row)) t))
  then (inl IntegrityError, w)
  else
    let i := fresh (dom t) in
    (inr (i, row), set_follows (<[i := row]> t) w).

(** [Follow.objects.get_or_create] with the columns of [row]: [get] on
    every given column, which fails on several matches; [create] when
    nothing matches. *)
Definition get_or_create (row : Follow) : M ((positive * Follow) * bool) :=
  w ← get_world;
  match select (same_row row) (follows w) with
  | [] => f ← create row; mret (f, true)
  | [f] => mret (f, false)
  | _ => raise MultipleObjectsReturned
  end.

(** [f.save()] *)
Definition save (f : positive * Follow) : M unit :=
  modify (λ w, set_follows (<[f.1 := f.2]> (follows w)) w).

(** [send_mass_mail(batch)] *)
Definition send_mass_mail (batch : list Mail) : M unit :=
  modify (add_batch batch).

(** The users the notification goes to (the second [users]). *)
Definition notified_users (t : gmap positive Follow) (action : Action)
  : list User :=
  let users := action_followers env t action in
  filter (λ u : User, email_notification u) users.

Definition email_batch (users : list User) (action : Action) : list Mail :=
  let subject := render_to_string env subject_template action in
  let subject := rstrip (isspace env) subject in
  let message := render_to_string env body_template action in
  let from_addr := CONTACT_EMAIL env in
  map (λ u : User,
         {| subject := subject; message := message;
            from_addr := from_addr; recipient_list := [email u] |})
      users.

(** The renderer, the profile lookup and the mail gateway are taken to
    work: a run in which one of them fails is not a run of this model. *)
Definition send_email_notifications (action : Action) : M unit :=
  w ← get_world;
  let users := notified_users (follows w) action in
  send_mass_mail (email_batch users action).

(** The body of the loop over [('target', 'action_object')]. *)
Definition attach (opt : Opt) (st : Action * gmap string pyval)
  : M (Action * gmap string pyval) :=
  let '(obj, kwargs) := pop (opt_name opt) VNone st.2 in
  match obj with
  | VNone => mret (st.1, kwargs)
  | _ =>
      check_actionable_model obj;;
      o ← as_obj obj;
      mret (set_reference opt (pk o) (get_for_model o) st.1, kwargs)
  end.

(** [action_handler(verb, **kwargs)]; [unicode(verb)] is [verb] on
    text. *)
Definition action_handler (verb : string) (kwargs : gmap string pyval)
  : M unit :=
  let kwargs := (pop "signal" VNone kwargs).2 in
  match kwargs !! "sender" with
  | None => raise (KeyError "sender")
  | Some actor =>
      let kwargs := delete "sender" kwargs in
      check_actionable_model actor;;
      a ← as_obj actor;
      let '(public, kwargs) := pop "public" (VBool true) kwargs in
      let '(description, kwargs) := pop "description" VNone kwargs in
      let '(timestamp, kwargs) :=
        pop "timestamp" (VDatetime (now env)) kwargs in
      let newaction :=
        {| actor_content_type := get_for_model a;
           actor_object_id := pk a;
           verb := verb;
           public := truthy public;
           description := description;
           timestamp := timestamp;
           target_object_id := None;
           target_content_type := None;
           action_object_object_id := None;
           action_object_content_type := None;
           data := None |} in
      st ← for_in [target; action_object] attach (newaction, kwargs);
      let '(newaction, kwargs) := st in
      let newaction :=
        if USE_JSONFIELD env && bool_of_count (size kwargs)
        then set_data kwargs newaction else newaction in
      modify (add_action newaction);;
      send_email_notifications newaction
  end.

(** Modelled from the spec: the signal [actstream.models.action] and its
    wiring are not in the source.  [action_handler] is the subscriber of
    the event; sending is synchronous, hands the subscriber the signal,
    the sender and the named arguments, and lets what it raises through. *)
Definition action_send (sender : Obj) (verb : string)
    (named : gmap string pyval) : M unit :=
  modify (add_signal {| sent_sender := sender; sent_verb := verb;
                        sent_named := named |});;
  action_handler verb
    (<["signal" := VSignal]> (<["sender" := VObj sender]> named)).

(** [follow(user, obj, send_action=True, actor_only=True,
    email_notification=False)]; the defaults are the caller's to fill in. *)
Definition follow (user : User) (obj : Obj)
    (send_action actor_only email_notification : bool)
  : M (positive * Follow) :=
  check_actionable_model (VObj obj);;
  fc ← get_or_create
         {| user_id := user_pk user;
            object_id := pk obj;
            content_type := get_for_model obj;
            actor_only := actor_only;
            send_email := email_notification |};
  let '(follow, created) := fc in
  (if send_action && created
   then action_send (user_obj user) "started following"
          {["target" := VObj obj]}
   else mret ());;
  mret follow.

Definition set_all_email_notifications (user : User) (enable : bool)
  : M unit :=
  w ← get_world;
  let follow_list := select (owned_by user) (follows w) in
  for_in follow_list
    (λ f _, save (f.1, with_send_email enable f.2)) ().

(** [unfollow(user, obj, send_action=False)] *)
Definition unfollow (user : User) (obj : Obj) (send_action : bool)
  : M unit :=
  check_actionable_model (VObj obj);;
  modify (λ w,
    set_follows (delete_where (follows_of user obj) (follows w)) w);;
  if send_action
  then action_send (user_obj user) "stopped following"
         {["target" := VObj obj]}
  else mret ().

Definition is_following (user : User) (obj : Obj) : M bool :=
  check_actionable_model (VObj obj);;
  w ← get_world;
  mret (bool_of_count (length (select (follows_of user obj) (follows w)))).

End Actions.

(** ** Vocabulary of the statements *)

(** The registry recognizes the kind of [v]. *)
Definition acceptable (env : Env) (v : pyval) : bool :=
  match v with
  | VObj o => isRegistered env (model o)
  | _ => false
  end.

(** An optional keyword argument is supplied: present and not [None]. *)
Definition supplied (kwargs : gmap string pyval) (k : string) : bool :=
  match kwargs !! k with
  | None | Some VNone => false
  | Some _ => true
  end.

(** An optional entity is supplied and the registry does not know it. *)
Definition unrecognized (env : Env) (kwargs : gmap string pyval)
    (k : string) : bool :=
  match kwargs !! k with
  | None | Some VNone => false
  | Some v => negb (acceptable env v)
  end.

(** Number of relationships of a (user, entity) pair. *)
Definition pair_count (user : User) (obj : Obj) (w : World) : nat :=
  length (select (follows_of user obj) (follows w)).

(** The keyword arguments [action_handler] consumes itself. *)
Definition consumed : list string :=
  ["signal"; "sender"; "public"; "description"; "timestamp";
   "target"; "action_object"].

(** What is left of the keyword arguments after them. *)
Definition leftover (kwargs : gmap string pyval) : gmap string pyval :=
  foldl (λ d k, delete k d) kwargs consumed.

(** The reference a record keeps of an optional entity. *)
Definition reference (kwargs : gmap string pyval) (k : string)
  : option Z * option string :=
  match kwargs !! k with
  | Some (VObj o) => (Some (pk o), Some (get_for_model o))
  | _ => (None, None)
  end.

(** The record a call with actor [a] persists when nothing is raised,
    field by field from the keyword arguments it was given. *)
Definition recorded (env : Env) (verb : string)
    (kwargs : gmap string pyval) (a : Obj) : Action :=
  {| actor_content_type := get_for_model a;
     actor_object_id := pk a;
     verb := verb;
     public := truthy (default (VBool true) (kwargs !! "public"));
     description := default VNone (kwargs !! "description");
     timestamp := default (VDatetime (now env)) (kwargs !! "timestamp");
     target_object_id := (reference kwargs "target").1;
     target_content_type := (reference kwargs "target").2;
     action_object_object_id := (reference kwargs "action_object").1;
     action_object_content_type := (reference kwargs "action_object").2;
     data :=
       if USE_JSONFIELD env && bool_of_count (size (leftover kwargs))
       then Some (leftover kwargs) else None |}.

(** The world after [a] was saved and its notifications were sent. *)
Definition after_action (env : Env) (a : Action) (w : World) : World :=
  add_batch (email_batch env (notified_users env (follows w) a) a)
    (add_action a w).

(** The event [follow] and [unfollow] send: the user did [verb] to [obj]. *)
Definition following_event (verb : string) (user : User) (obj : Obj) : Sent :=
  {| sent_sender := user_obj user; sent_verb := verb;
     sent_named := {["target" := VObj obj]} |}.

(** The keyword arguments the subscriber receives for it. *)
Definition following_kwargs (user : User) (obj : Obj) : gmap string pyval :=
  <["signal" := VSignal]>
    (<["sender" := VObj (user_obj user)]> {["target" := VObj obj]}).

(** The row [follow] looks up and creates. *)
Definition follow_row (user : User) (obj : Obj)
    (actor_only email_notification : bool) : Follow :=
  {| user_id := user_pk user;
     object_id := pk obj;
     content_type := get_for_model obj;
     actor_only := actor_only;
     send_email := email_notification |}.

(** At most one relationship for every (user, entity) pair. *)
Definition one_per_pair (w : World) : Prop :=
  ∀ user obj, pair_count user obj w ≤ 1.

(** A call of one of the module's functions. *)
Inductive call :=
| Call_follow (user : User) (obj : Obj)
    (send_action actor_only email_notification : bool)
| Call_unfollow (user : User) (obj : Obj) (send_action : bool)
| Call_is_following (user : User) (obj : Obj)
| Call_set_all_email_notifications (user : User) (enable : bool)
| Call_send_email_notifications (action : Action)
| Call_action_handler (verb : string) (kwargs : gmap string pyval).

(** The world a call leaves, whether it returns or raises. *)
Definition perform (env : Env) (c : call) (w : World) : World :=
  match c with
  | Call_follow u o sa ao em => world_of (follow env u o sa ao em w)
  | Call_unfollow u o sa => world_of (unfollow env u o sa w)
  | Call_is_following u o => world_of (is_following env u o w)
  | Call_set_all_email_notifications u b =>
      world_of (set_all_email_notifications u b w)
  | Call_send_email_notifications a =>
      world_of (send_email_notifications env a w)
  | Call_action_handler verb kwargs =>
      world_of (action_handler env verb kwargs w)
  end.

Definition perform_all (env : Env) (cs : list call) (w : World) : World :=
  foldl (λ w c, perform env c w) w cs.

(** ** Sample data *)

Definition alice : User :=
  {| user_pk := 1; email := "alice@example.org"; email_notification := true |}.

Definition bob : User :=
  {| user_pk := 2; email := "bob@example.org"; email_notification := false |}.

Definition post : Obj := {| model := "blog.post"; pk := 7 |}.

Definition world0 : World :=
  {| follows := ∅; actions := []; signals := []; outbox := [] |}.

(** A directory of two users; a follower has a row on the actor. *)
Definition sample_followers (t : gmap positive Follow) (a : Action)
  : list User :=
  filter
    (λ u : User,
       bool_of_count
         (length (select (targets (user_pk u) (actor_object_id a)
                                  (actor_content_type a)) t)))
    [alice; bob].

(** A renderer whose templates end in a line feed, as files do. *)
Definition sample_render (name : string) (a : Action) : unicode :=
  utext (name +:+ ": " +:+ verb a) ++ [10%N].

(** Users and posts are registered; the table has no constraint. *)
Definition env_open : Env :=
  {| isRegistered := λ m,
       String.eqb m "auth.user" || String.eqb m "blog.post";
     USE_JSONFIELD := true;
     CONTACT_EMAIL := Some "noreply@example.org";
     unique_together := false;
     render_to_string := sample_render;
     isspace := py_isspace;
     action_followers := sample_followers;
     now := 1000 |}.

(** The same, with the table unique on the pair. *)
Definition env_unique : Env :=
  {| isRegistered := isRegistered env_open;
     USE_JSONFIELD := true;
     CONTACT_EMAIL := Some "noreply@example.org";
     unique_together := true;
     render_to_string := sample_render;
     isspace := py_isspace;
     action_followers := sample_followers;
     now := 1000 |}.

(** Only posts are registered. *)
Definition env_posts_only : Env :=
  {| isRegistered := λ m, String.eqb m "blog.post";
     USE_JSONFIELD := true;
     CONTACT_EMAIL := Some "noreply@example.org";
     unique_together := false;
     render_to_string := sample_render;
     isspace := py_isspace;
     action_followers := sample_followers;
     now := 1000 |}.

(** Alice and Bob follow the post. *)
Definition world_followed : World :=
  {| follows := {[ 1%positive := follow_row alice post true false;
                   2%positive := follow_row bob post true true ]};
     actions := []; signals := []; outbox := [] |}.

(** The post did something. *)
Definition post_kwargs : gmap string pyval :=
  {[ "signal" := VSignal; "sender" := VObj post;
     "note" := VStr "second edition" ]}.

Definition post_action : Action :=
  recorded env_open "was updated" post_kwargs post.


(** Alice followed the post twice, with and without mail, and then
    switched mail on everywhere: two rows that agree on every column. *)
Definition world_ambiguous : World :=
  world_of
    (set_all_email_notifications alice true
       (world_of
          (follow env_open alice post false true true
             (world_of (follow env_open alice post false true false
                          world0))))).

Definition comment : Obj := {| model := "blog.post"; pk := 8 |}.

(** Alice commented on the post, and said more than the handler asks. *)
Definition comment_kwargs : gmap string pyval :=
  {[ "signal" := VSignal; "sender" := VObj (user_obj alice);
     "public" := VNone; "description" := VStr "first";
     "target" := VObj post; "action_object" := VObj comment;
     "mood" := VStr "happy" ]}.

(** ** Running computations *)

Ltac run :=
  repeat (unfold mbind, M_bind, mret, M_ret, raise, modify, get_world,
            outcome, world_of, raises in *;
          cbn beta iota zeta in *).

(** ** Small runs *)

Example rstrip_subject :
  rstrip py_isspace (utext "alice started following post 7 
")
  = utext "alice started following post 7".
Proof. reflexivity. Qed.

Example rstrip_keeps_inner_space :
  rstrip py_isspace (utext " a b") = utext " a b".
Proof. reflexivity. Qed.

Example rstrip_beyond_ascii :
  rstrip py_isspace (utext "abc" ++ [133; 160; 8232; 12288]%N)
  = utext "abc".
Proof. reflexivity. Qed.

Example first_follow_creates_and_records :
  let r := follow env_open alice post true true false world0 in
  outcome r = inr (1%positive, follow_row alice post true false)
  ∧ map_to_list (follows (world_of r))
    = [(1%positive, follow_row alice post true false)]
  ∧ verb <$> actions (world_of r) = ["started following"]
  ∧ target_object_id <$> actions (world_of r) = [Some 7%Z]
  ∧ length (outbox (world_of r)) = 1.
Proof. vm_compute. repeat split; reflexivity. Qed.

Example same_follow_again_is_silent :
  let r1 := follow env_open alice post true true false world0 in
  follow env_open alice post true true false (world_of r1)
  = (inr (1%positive, follow_row alice post true false), world_of r1).
Proof. vm_compute. reflexivity. Qed.

Example unfollow_deletes :
  let r := unfollow env_open alice post false world_followed in
  map_to_list (follows (world_of r))
  = [(2%positive, follow_row bob post true true)]
  ∧ signals (world_of r) = [].
Proof. vm_compute. split; reflexivity. Qed.

Example unregistered_actor_persists_nothing :
  action_handler env_posts_only "commented"
    {["signal" := VSignal; "sender" := VObj (user_obj alice)]} world0
  = (inl UnregisteredEntityError, world0).
Proof. vm_compute. reflexivity. Qed.

Example notification_goes_to_enabled_followers :
  recipient_list
    <$> email_batch env_open
          (notified_users env_open (follows world_followed) post_action)
          post_action
  = [["alice@example.org"]].
Proof. vm_compute. reflexivity. Qed.

Section Facts.

Variable env : Env.

Lemma check_actionable_model_run v w :
  check_actionable_model env v w =
  if acceptable env v then (inr (), w) else (inl UnregisteredEntityError, w).
Proof.
  destruct v as [| | | | |o|]; simpl; try reflexivity.
  destruct (isRegistered env (model o)); reflexivity.
Qed.

Lemma send_email_notifications_run a w :
  send_email_notifications env a w =
  (inr (), add_batch (email_batch env (notified_users env (follows w) a) a) w).
Proof. reflexivity. Qed.

Lemma attach_run opt a kw w :
  attach env opt (a, kw) w =
  match kw !! opt_name opt with
  | None | Some VNone => (inr (a, delete (opt_name opt) kw), w)
  | Some (VObj o) =>
      if isRegistered env (model o)
      then (inr (set_reference opt (pk o) (get_for_model o) a,
                 delete (opt_name opt) kw), w)
      else (inl UnregisteredEntityError, w)
  | Some _ => (inl UnregisteredEntityError, w)
  end.
Proof.
  unfold attach, pop; simpl.
  destruct (kw !! opt_name opt) as [[| | | | |o|]|]; simpl; try reflexivity.
  run. destruct (isRegistered env (model o)); reflexivity.
Qed.

(** [action_handler] in one step: it raises before anything is saved, or
    saves the record built from its arguments and notifies once. *)
Lemma action_handler_run verb kw actor w :
  kw !! "sender" = Some actor →
  action_handler env verb kw w =
  match actor with
  | VObj a =>
      if negb (isRegistered env (model a))
         || unrecognized env kw "target"
         || unrecognized env kw "action_object"
      then (inl UnregisteredEntityError, w)
      else (inr (), after_action env (recorded env verb kw a) w)
  | _ => (inl UnregisteredEntityError, w)
  end.
Proof.
  intros Hs. unfold action_handler, pop. cbn beta iota zeta. cbn [snd fst].
  rewrite lookup_delete_ne, Hs by done.
  destruct actor as [| | | | |a|]; try reflexivity.
  run. simpl. destruct (isRegistered env (model a)); [|reflexivity].
  simpl. rewrite !lookup_delete_ne by done.
  set (kw5 := delete "timestamp" _).
  assert (Ht : kw5 !! "target" = kw !! "target")
    by (unfold kw5; rewrite !lookup_delete_ne by done; reflexivity).
  assert (Ho : delete "target" kw5 !! "action_object" = kw !! "action_object")
    by (unfold kw5; rewrite !lookup_delete_ne by done; reflexivity).
  run. rewrite attach_run. simpl opt_name. rewrite Ht.
  unfold after_action, recorded, leftover, unrecognized, reference, acceptable.
  cbn [foldl consumed]. fold kw5.
  destruct (kw !! "target") as [[| | | | |t|]|]; try reflexivity;
    try (destruct (isRegistered env (model t)); [|reflexivity]);
    cbn beta iota zeta; rewrite attach_run; simpl opt_name; rewrite Ho;
    (destruct (kw !! "action_object") as [[| | | | |o|]|]; try reflexivity;
     try (destruct (isRegistered env (model o)); [|reflexivity]));
    cbn beta iota zeta; rewrite send_email_notifications_run;
    destruct (USE_JSONFIELD env && _); reflexivity.
Qed.

(** *** The Follow table *)

Lemma elem_of_select P t i r :
  (i, r) ∈ select P t ↔ t !! i = Some r ∧ P r = true.
Proof.
  unfold select. rewrite list_elem_of_filter, elem_of_map_to_list. simpl.
  rewrite Is_true_true. tauto.
Qed.

Lemma NoDup_select P t : NoDup (select P t).
Proof. apply NoDup_filter, NoDup_map_to_list. Qed.

Lemma NoDup_select_keys P t : NoDup (select P t).*1.
Proof.
  apply NoDup_fmap_fst; [|apply NoDup_select].
  intros i r1 r2 [H1 _]%elem_of_select [H2 _]%elem_of_select. congruence.
Qed.

Lemma select_insert_fresh P t i r :
  t !! i = None →
  select P (<[i := r]> t) ≡ₚ (if P r then [(i, r)] else []) ++ select P t.
Proof.
  intros Hi. unfold select. rewrite map_to_list_insert by done.
  rewrite filter_cons. simpl. destruct (P r); reflexivity.
Qed.

Lemma bool_of_count_true {A} (l : list A) :
  bool_of_count (length l) = true ↔ l ≠ [].
Proof. destruct l; cbn; split; intros; done. Qed.

Lemma bool_of_count_false {A} (l : list A) :
  bool_of_count (length l) = false ↔ l = [].
Proof. destruct l; cbn; split; intros; done. Qed.

Lemma select_nonempty P t i r :
  t !! i = Some r → P r = true → select P t ≠ [].
Proof.
  intros Hi HP Hnil.
  assert (H : (i, r) ∈ select P t) by (apply elem_of_select; done).
  rewrite Hnil in H. inversion H.
Qed.

Lemma delete_where_lookup P t i r :
  delete_where P t !! i = Some r ↔ t !! i = Some r ∧ P r = false.
Proof.
  unfold delete_where. rewrite map_lookup_filter_Some. simpl.
  rewrite negb_True, Is_true_false. tauto.
Qed.

Lemma select_delete_where P t : select P (delete_where P t) = [].
Proof.
  destruct (select P (delete_where P t)) as [|[i r] l] eqn:E; [done|].
  assert (H : (i, r) ∈ select P (delete_where P t))
    by (rewrite E; left).
  apply elem_of_select in H as [[_ H1]%delete_where_lookup H2]. congruence.
Qed.

Lemma fresh_key_free (t : gmap positive Follow) : t !! fresh (dom t) = None.
Proof. apply not_elem_of_dom, is_fresh. Qed.

(** *** Sending the following events *)

Lemma following_kwargs_sender u o :
  following_kwargs u o !! "sender" = Some (VObj (user_obj u)).
Proof.
  unfold following_kwargs.
  rewrite lookup_insert_ne by done. apply lookup_insert_eq.
Qed.

Lemma following_kwargs_target u o :
  following_kwargs u o !! "target" = Some (VObj o).
Proof.
  unfold following_kwargs.
  rewrite !lookup_insert_ne by done. apply lookup_singleton_eq.
Qed.

Lemma following_kwargs_other u o k :
  k ≠ "signal" → k ≠ "sender" → k ≠ "target" →
  following_kwargs u o !! k = None.
Proof.
  intros H1 H2 H3. unfold following_kwargs.
  rewrite !lookup_insert_ne, lookup_singleton_ne by done. reflexivity.
Qed.

Lemma action_send_run verb u o w :
  action_send env (user_obj u) verb {["target" := VObj o]} w =
  let w' := add_signal (following_event verb u o) w in
  if isRegistered env User_model && isRegistered env (model o)
  then (inr (),
        after_action env
          (recorded env verb (following_kwargs u o) (user_obj u)) w')
  else (inl UnregisteredEntityError, w').
Proof.
  unfold action_send. run. fold (following_kwargs u o).
  rewrite (action_handler_run _ _ _ _ (following_kwargs_sender u o)).
  unfold unrecognized.
  rewrite following_kwargs_target,
    (following_kwargs_other u o "action_object") by done.
  simpl. destruct (isRegistered env User_model),
    (isRegistered env (model o)); reflexivity.
Qed.

Lemma action_send_follows verb u o w :
  follows (world_of (action_send env (user_obj u) verb
                       {["target" := VObj o]} w)) = follows w.
Proof.
  rewrite action_send_run. cbn zeta.
  destruct (_ && _); reflexivity.
Qed.

Lemma action_send_signals verb u o w :
  signals (world_of (action_send env (user_obj u) verb
                       {["target" := VObj o]} w))
  = signals w ++ [following_event verb u o].
Proof.
  rewrite action_send_run. cbn zeta.
  destruct (_ && _); reflexivity.
Qed.

(** *** [follow], case by case *)

(** What [follow] does once the entity passed the check: by the rows that
    match all five columns. *)
Lemma follow_run u o sa ao em w :
  isRegistered env (model o) = true →
  follow env u o sa ao em w =
  match select (same_row (follow_row u o ao em)) (follows w) with
  | [] =>
      if unique_together env && bool_of_count (pair_count u o w)
      then (inl IntegrityError, w)
      else
        let i := fresh (dom (follows w)) in
        let row := follow_row u o ao em in
        let w' := set_follows (<[i := row]> (follows w)) w in
        if sa
        then
          match action_send env (user_obj u) "started following"
                  {["target" := VObj o]} w' with
          | (inl e, w'') => (inl e, w'')
          | (inr _, w'') => (inr (i, row), w'')
          end
        else (inr (i, row), w')
  | [f] => (inr f, w)
  | _ :: _ :: _ => (inl MultipleObjectsReturned, w)
  end.
Proof.
  intros Hreg. unfold follow, get_or_create, check_actionable_model.
  rewrite Hreg. run. fold (follow_row u o ao em).
  destruct (select _ (follows w)) as [|f [|f' l]]; run;
    [| rewrite andb_false_r; reflexivity | reflexivity].
  unfold create. cbn [user_id object_id content_type follow_row].
  fold (follows_of u o). fold (pair_count u o w).
  destruct (unique_together env && _); [reflexivity|].
  destruct sa; reflexivity.
Qed.

Lemma follow_unregistered u o sa ao em w :
  isRegistered env (model o) = false →
  follow env u o sa ao em w = (inl UnregisteredEntityError, w).
Proof.
  intros Hreg. unfold follow, check_actionable_model.
  rewrite Hreg. reflexivity.
Qed.

(** *** [unfollow] and [is_following] *)

Lemma unfollow_run u o sa w :
  isRegistered env (model o) = true →
  unfollow env u o sa w =
  let w' := set_follows (delete_where (follows_of u o) (follows w)) w in
  if sa
  then action_send env (user_obj u) "stopped following"
         {["target" := VObj o]} w'
  else (inr (), w').
Proof.
  intros Hreg. unfold unfollow, check_actionable_model.
  rewrite Hreg. run.
  destruct sa; [|reflexivity].
  destruct (action_send _ _ _ _ _) as [[e|[]] w']; reflexivity.
Qed.

Lemma unfollow_unregistered u o sa w :
  isRegistered env (model o) = false →
  unfollow env u o sa w = (inl UnregisteredEntityError, w).
Proof.
  intros Hreg. unfold unfollow, check_actionable_model.
  rewrite Hreg. reflexivity.
Qed.

Lemma is_following_run u o w :
  is_following env u o w =
  if isRegistered env (model o)
  then (inr (bool_of_count (pair_count u o w)), w)
  else (inl UnregisteredEntityError, w).
Proof.
  unfold is_following, check_actionable_model.
  destruct (isRegistered env (model o)); reflexivity.
Qed.

(** *** The bulk update *)

Lemma save_loop_run (g : Follow → Follow) l w :
  for_in l (λ (f : positive * Follow) (_ : ()), save (f.1, g f.2)) () w =
  (inr (),
   set_follows (foldl (λ t f, <[f.1 := g f.2]> t) (follows w) l) w).
Proof.
  revert w. induction l as [|f l IH]; intros w.
  - destruct w; reflexivity.
  - simpl. run. unfold save at 1. run. rewrite IH. reflexivity.
Qed.

Lemma foldl_insert_lookup (g : Follow → Follow) l :
  NoDup l.*1 →
  ∀ (t : gmap positive Follow) k,
    foldl (λ t f, <[f.1 := g f.2]> t) t l !! k =
    match (list_to_map l : gmap positive Follow) !! k with
    | Some r => Some (g r)
    | None => t !! k
    end.
Proof.
  induction l as [|[i r] l IH]; intros Hnd t k; [reflexivity|].
  change (((i, r) :: l).*1) with (i :: l.*1) in Hnd.
  apply NoDup_cons in Hnd as [Hi Hnd].
  change (foldl _ t ((i, r) :: l))
    with (foldl (λ t f, <[f.1 := g f.2]> t) (<[i := g r]> t) l).
  rewrite IH, list_to_map_cons by done.
  destruct (decide (k = i)) as [->|Hne].
  - rewrite (not_elem_of_list_to_map_1 l i), !lookup_insert_eq by done.
    reflexivity.
  - rewrite !lookup_insert_ne by done. reflexivity.
Qed.

Lemma set_all_email_notifications_run u b w :
  ∃ t,
    set_all_email_notifications u b w = (inr (), set_follows t w) ∧
    ∀ k, t !! k =
         (λ r, if owned_by u r then with_send_email b r else r)
           <$> follows w !! k.
Proof.
  unfold set_all_email_notifications. run.
  rewrite (save_loop_run (with_send_email b)).
  eexists; split; [reflexivity|]. intros k.
  rewrite foldl_insert_lookup by apply NoDup_select_keys.
  destruct (list_to_map _ !! k) as [r|] eqn:E.
  - apply elem_of_list_to_map in E as [Hk Ho]%elem_of_select;
      [|apply NoDup_select_keys].
    rewrite Hk. simpl. rewrite Ho. reflexivity.
  - destruct (follows w !! k) as [r|] eqn:Hk; [|reflexivity]. simpl.
    destruct (owned_by u r) eqn:Ho; [|reflexivity].
    apply not_elem_of_list_to_map in E. exfalso. apply E.
    apply list_elem_of_fmap. exists (k, r). split; [reflexivity|].
    apply elem_of_select. done.
Qed.

(** *** Outcomes *)

Lemma action_handler_cases verb kw w :
  (∃ e, action_handler env verb kw w = (inl e, w)) ∨
  (∃ a, kw !! "sender" = Some (VObj a) ∧
        isRegistered env (model a) = true ∧
        unrecognized env kw "target" = false ∧
        unrecognized env kw "action_object" = false ∧
        action_handler env verb kw w
        = (inr (), after_action env (recorded env verb kw a) w)).
Proof.
  destruct (kw !! "sender") as [actor|] eqn:Hs.
  - rewrite (action_handler_run _ _ _ _ Hs).
    destruct actor as [| | | | |a|]; try (left; eexists; reflexivity).
    destruct (isRegistered env (model a)) eqn:Ha,
      (unrecognized env kw "target") eqn:Ht,
      (unrecognized env kw "action_object") eqn:Ho; simpl;
      try (left; eexists; reflexivity).
    right. exists a. done.
  - left. exists (KeyError "sender"). unfold action_handler, pop.
    cbn [snd]. rewrite lookup_delete_ne, Hs by done. reflexivity.
Qed.

Lemma action_handler_follows verb kw w :
  follows (world_of (action_handler env verb kw w)) = follows w.
Proof.
  destruct (action_handler_cases verb kw w) as [[e ->]|(a & _ & _ & _ & _ & ->)];
    reflexivity.
Qed.

Lemma follows_of_follow_row u o ao em :
  follows_of u o (follow_row u o ao em) = true.
Proof.
  unfold follows_of, targets, follow_row. simpl.
  rewrite !bool_decide_eq_true_2 by done. reflexivity.
Qed.

Lemma same_row_follows_of u o ao em r :
  same_row (follow_row u o ao em) r = true → follows_of u o r = true.
Proof.
  unfold same_row. intros ->%bool_decide_eq_true.
  apply follows_of_follow_row.
Qed.

Lemma pair_count_insert u o row t i :
  t !! i = None →
  length (select (follows_of u o) (<[i := row]> t)) =
  (if follows_of u o row then 1 else 0)
  + length (select (follows_of u o) t).
Proof.
  intros Hi. rewrite (select_insert_fresh _ _ _ _ Hi), length_app.
  destruct (follows_of u o row); reflexivity.
Qed.

(** [follow] on a registered entity either leaves the world as it was,
    a matching row or the constraint being in the way, or adds the row
    and sends what it was asked to send. *)
Lemma follow_cases u o sa ao em w :
  isRegistered env (model o) = true →
  let r := follow env u o sa ao em w in
  let row := follow_row u o ao em in
  (world_of r = w ∧
   (select (same_row row) (follows w) ≠ [] ∨
    unique_together env = true ∧ pair_count u o w ≠ 0))
  ∨
  (select (same_row row) (follows w) = [] ∧
   unique_together env && bool_of_count (pair_count u o w) = false ∧
   follows (world_of r) = <[fresh (dom (follows w)) := row]> (follows w) ∧
   signals (world_of r) =
     signals w
     ++ (if sa then [following_event "started following" u o] else [])).
Proof.
  intros Hreg r row. subst r. rewrite (follow_run _ _ _ _ _ _ Hreg).
  fold row.
  destruct (select (same_row row) (follows w)) as [|f [|f' l]] eqn:Hsel;
    [|left; split; [reflexivity|left; done]..].
  destruct (unique_together env && _) eqn:Hu.
  - left. split; [reflexivity|]. right.
    apply andb_true_iff in Hu as [Hu Hc]. split; [done|].
    apply bool_of_count_true in Hc. intros E%nil_length_inv. done.
  - right. split; [done|]. split; [done|]. cbn zeta.
    destruct sa.
    + pose proof (action_send_follows "started following" u o
        (set_follows (<[fresh (dom (follows w)) := row]> (follows w)) w))
        as Hf.
      pose proof (action_send_signals "started following" u o
        (set_follows (<[fresh (dom (follows w)) := row]> (follows w)) w))
        as Hs.
      destruct (action_send _ _ _ _ _) as [[e|[]] w'']; split; assumption.
    + split; [reflexivity|]. simpl. rewrite app_nil_r. reflexivity.
Qed.

Lemma follow_keeps_relationship u o sa ao em w :
  isRegistered env (model o) = true →
  select (follows_of u o)
    (follows (world_of (follow env u o sa ao em w))) ≠ [].
Proof.
  intros Hreg.
  destruct (follow_cases u o sa ao em w Hreg)
    as [[-> [Hsel|[_ Hc]]]|(_ & _ & -> & _)].
  - destruct (select (same_row _) _) as [|[i r] l] eqn:E; [done|].
    assert (H : (i, r) ∈ select (same_row (follow_row u o ao em)) (follows w))
      by (rewrite E; left).
    apply elem_of_select in H as [Hi Hr].
    eapply select_nonempty; [exact Hi|].
    eapply same_row_follows_of, Hr.
  - unfold pair_count in Hc. intros E. rewrite E in Hc. done.
  - eapply select_nonempty; [apply lookup_insert_eq|].
    apply follows_of_follow_row.
Qed.

Lemma follow_returns_registered u o sa ao em w f w1 :
  follow env u o sa ao em w = (inr f, w1) →
  isRegistered env (model o) = true.
Proof.
  intros H. destruct (isRegistered env (model o)) eqn:E; [done|].
  rewrite (follow_unregistered _ _ _ _ _ _ E) in H. discriminate.
Qed.

Lemma same_row_pair_count u o ao em w :
  select (same_row (follow_row u o ao em)) (follows w) ≠ [] →
  pair_count u o w ≠ 0.
Proof.
  intros Hsel E%nil_length_inv.
  destruct (select (same_row _) _) as [|[i r] l] eqn:El; [done|].
  assert (H : (i, r) ∈ select (same_row (follow_row u o ao em)) (follows w))
    by (rewrite El; left).
  apply elem_of_select in H as [Hi Hr].
  eapply select_nonempty; [exact Hi| |exact E].
  eapply same_row_follows_of, Hr.
Qed.

(** A [follow] that returns after finding no matching row has created
    the row it returns. *)
Lemma follow_created u o sa ao em w f w1 :
  follow env u o sa ao em w = (inr f, w1) →
  select (same_row (follow_row u o ao em)) (follows w) = [] →
  f = (fresh (dom (follows w)), follow_row u o ao em)
  ∧ follows w1
    = <[fresh (dom (follows w)) := follow_row u o ao em]> (follows w).
Proof.
  intros H Hsel.
  pose proof (follow_returns_registered _ _ _ _ _ _ _ _ H) as Hreg.
  rewrite (follow_run _ _ _ _ _ _ Hreg), Hsel in H.
  destruct (unique_together env && _); [discriminate|]. cbn zeta in H.
  destruct sa.
  - pose proof (action_send_follows "started following" u o
      (set_follows (<[fresh (dom (follows w)) := follow_row u o ao em]>
                      (follows w)) w)) as Hf.
    destruct (action_send _ _ _ _ _) as [[e|[]] w'']; [discriminate|].
    injection H as <- <-. split; [reflexivity|exact Hf].
  - injection H as <- <-. split; reflexivity.
Qed.

(** Once a row with the flags of the call is there alone, [follow]
    returns it and changes nothing. *)
Lemma follow_found u o sa ao em w f :
  isRegistered env (model o) = true →
  select (same_row (follow_row u o ao em)) (follows w) = [f] →
  follow env u o sa ao em w = (inr f, w).
Proof.
  intros Hreg Hsel. rewrite (follow_run _ _ _ _ _ _ Hreg), Hsel.
  reflexivity.
Qed.

Lemma select_same_row_insert row (t : gmap positive Follow) i :
  t !! i = None →
  select (same_row row) t = [] →
  select (same_row row) (<[i := row]> t) = [(i, row)].
Proof.
  intros Hi Hsel. apply Permutation_singleton_r.
  rewrite (select_insert_fresh _ _ _ _ Hi), Hsel.
  unfold same_row. rewrite bool_decide_eq_true_2 by done. reflexivity.
Qed.

(** *** At most one relationship per pair *)

Lemma follows_of_follow_row_inv u' o' u o ao em :
  follows_of u' o' (follow_row u o ao em) = true →
  follows_of u' o' = follows_of u o.
Proof.
  unfold follows_of, targets, follow_row; simpl.
  rewrite !andb_true_iff, !bool_decide_eq_true.
  intros [[-> ->] ->]. reflexivity.
Qed.

Lemma select_delete_where_length Q P t :
  length (select Q (delete_where P t)) ≤ length (select Q t).
Proof.
  apply submseteq_length, NoDup_submseteq; [apply NoDup_select|].
  intros [i r] [[Hi _]%delete_where_lookup HQ]%elem_of_select.
  apply elem_of_select. done.
Qed.

Lemma filter_fmap_length {A} (P : A → bool) (h : A → A) (l : list A) :
  (∀ x, P (h x) = P x) →
  length (filter (λ x, P x) (h <$> l)) = length (filter (λ x, P x) l).
Proof.
  intros Hh. induction l as [|x l IH]; [reflexivity|].
  rewrite fmap_cons, !filter_cons, Hh.
  destruct (decide (P x)); simpl; rewrite IH; reflexivity.
Qed.

Lemma select_fmap_length Q (g : Follow → Follow) (t : gmap positive Follow) :
  (∀ r, Q (g r) = Q r) →
  length (select Q (g <$> t)) = length (select Q t).
Proof.
  intros Hg. unfold select. rewrite map_to_list_fmap.
  apply (filter_fmap_length (λ ir : positive * Follow, Q ir.2)).
  intros [i r]. apply Hg.
Qed.

Lemma follow_one_per_pair u o sa ao em w :
  unique_together env = true →
  one_per_pair w →
  one_per_pair (world_of (follow env u o sa ao em w)).
Proof.
  intros Hu Hw.
  destruct (isRegistered env (model o)) eqn:Hreg;
    [|rewrite (follow_unregistered _ _ _ _ _ _ Hreg); exact Hw].
  destruct (follow_cases u o sa ao em w Hreg)
    as [[-> _]|(_ & Hc & Hf & _)]; [exact Hw|].
  rewrite Hu in Hc. apply bool_of_count_false, (f_equal length) in Hc.
  intros u' o'. unfold pair_count. rewrite Hf.
  rewrite pair_count_insert by apply fresh_key_free.
  destruct (follows_of u' o' _) eqn:E; [|apply Hw].
  rewrite (follows_of_follow_row_inv _ _ _ _ _ _ E), Hc. done.
Qed.

Lemma unfollow_one_per_pair u o sa w :
  one_per_pair w → one_per_pair (world_of (unfollow env u o sa w)).
Proof.
  intros Hw.
  destruct (isRegistered env (model o)) eqn:Hreg;
    [|rewrite (unfollow_unregistered _ _ _ _ Hreg); exact Hw].
  rewrite (unfollow_run _ _ _ _ Hreg). cbn zeta.
  intros u' o'. unfold pair_count.
  etrans; [|apply (Hw u' o')].
  destruct sa; [rewrite action_send_follows|];
    apply select_delete_where_length.
Qed.

Lemma set_all_email_notifications_one_per_pair u b w :
  one_per_pair w →
  one_per_pair (world_of (set_all_email_notifications u b w)).
Proof.
  intros Hw u' o'.
  destruct (set_all_email_notifications_run u b w) as (t & -> & Ht).
  assert (E : t = (λ r, if owned_by u r then with_send_email b r else r)
                    <$> follows w)
    by (apply map_eq; intros k; rewrite Ht, lookup_fmap; reflexivity).
  unfold pair_count, world_of; simpl. rewrite E, select_fmap_length.
  - apply Hw.
  - intros r. destruct (owned_by u r); reflexivity.
Qed.

(** With the table unique on the pair, no call of the module breaks
    "at most one relationship per pair". *)
Lemma perform_all_one_per_pair cs w :
  unique_together env = true →
  one_per_pair w → one_per_pair (perform_all env cs w).
Proof.
  intros Hu. revert w. induction cs as [|c cs IH]; intros w Hw; [exact Hw|].
  apply IH. destruct c as [u o sa ao em|u o sa|u o|u b|a|vb kw]; simpl.
  - apply follow_one_per_pair; assumption.
  - apply unfollow_one_per_pair; assumption.
  - rewrite is_following_run. destruct (isRegistered env (model o)); exact Hw.
  - apply set_all_email_notifications_one_per_pair; assumption.
  - exact Hw.
  - intros u' o'. unfold pair_count. rewrite action_handler_follows.
    apply Hw.
Qed.

(** *** Where [UnregisteredEntityError] can come from *)

Lemma action_send_registered verb u o w :
  isRegistered env User_model = true →
  isRegistered env (model o) = true →
  outcome (action_send env (user_obj u) verb {["target" := VObj o]} w)
  = inr ().
Proof.
  intros Hu Ho. rewrite action_send_run, Hu, Ho. reflexivity.
Qed.

Lemma follow_recognized u o sa ao em w :
  isRegistered env (model o) = true →
  sa = false ∨ isRegistered env User_model = true →
  outcome (follow env u o sa ao em w) ≠ inl UnregisteredEntityError.
Proof.
  intros Hreg Hsa. rewrite (follow_run _ _ _ _ _ _ Hreg).
  destruct (select _ _) as [|f [|f' l]]; [|done..].
  destruct (unique_together env && _); [done|]. cbn zeta.
  destruct Hsa as [->|Hu]; [done|]. destruct sa; [|done].
  pose proof (action_send_registered "started following" u o
    (set_follows (<[fresh (dom (follows w)) := follow_row u o ao em]>
                    (follows w)) w) Hu Hreg) as Hs.
  destruct (action_send _ _ _ _ _) as [[e|[]] w'']; [discriminate|done].
Qed.

Lemma unfollow_recognized u o sa w :
  isRegistered env (model o) = true →
  sa = false ∨ isRegistered env User_model = true →
  outcome (unfollow env u o sa w) ≠ inl UnregisteredEntityError.
Proof.
  intros Hreg Hsa. rewrite (unfollow_run _ _ _ _ Hreg). cbn zeta.
  destruct Hsa as [->|Hu]; [done|]. destruct sa; [|done].
  rewrite action_send_registered by done. done.
Qed.

(** *** Stripping *)

Lemma lstrip_split P (s : unicode) :
  ∃ ws,
    s = ws ++ lstrip P s
    ∧ Forall (λ c, P c = true) ws
    ∧ match head (lstrip P s) with
      | Some c => P c = false
      | None => True
      end.
Proof.
  induction s as [|c s (ws & E & Hws & Hhd)].
  - exists []. repeat split. constructor.
  - simpl. destruct (P c) eqn:Hc.
    + exists (c :: ws). rewrite E at 1. repeat split; [|exact Hhd].
      constructor; assumption.
    + exists []. simpl. rewrite Hc. repeat split. constructor.
Qed.

(** What [rstrip] takes away is whitespace at the end, all of it. *)
Lemma rstrip_split P (s : unicode) :
  ∃ ws,
    s = rstrip P s ++ ws
    ∧ Forall (λ c, P c = true) ws
    ∧ match last (rstrip P s) with
      | Some c => P c = false
      | None => True
      end.
Proof.
  destruct (lstrip_split P (reverse s)) as (ws & E & Hws & Hhd).
  exists (reverse ws). split; [|split].
  - unfold rstrip. rewrite <- reverse_app, <- E, reverse_involutive.
    reflexivity.
  - apply Forall_reverse, Hws.
  - unfold rstrip. rewrite last_reverse. exact Hhd.
Qed.

(** A text that does not end in whitespace is a fixed point. *)
Lemma rstrip_id P (s : unicode) :
  match last s with
  | Some c => P c = false
  | None => True
  end →
  rstrip P s = s.
Proof.
  unfold rstrip. rewrite <- head_reverse.
  intros H. rewrite <- (reverse_involutive s) at 2. f_equal.
  destruct (reverse s) as [|c l]; [reflexivity|].
  simpl in *. rewrite H. reflexivity.
Qed.

Lemma filter_enabled (l : list User) :
  filter (λ u : User, email_notification u = true) l
  = filter (λ u : User, email_notification u) l.
Proof. apply list_filter_iff. intros u. symmetry. apply Is_true_true. Qed.

End Facts.

(** ** The claims *)

Section Claims.

Variable env : Env.

(** C3: for every user and registered entity, [is_following] answers
    [True] in the world a [follow] of that pair leaves, and [False] in the
    world an [unfollow] of that pair leaves, whatever the flags and
    whether the call returned or raised after its check. *)
Theorem follow_then_is_following u o sa ao em sa' w :
  isRegistered env (model o) = true →
  outcome (is_following env u o (world_of (follow env u o sa ao em w)))
  = inr true
  ∧ outcome (is_following env u o (world_of (unfollow env u o sa' w)))
    = inr false.
Proof.
  intros Hreg. rewrite !is_following_run, Hreg. unfold outcome; simpl.
  split; f_equal.
  - apply bool_of_count_true, follow_keeps_relationship, Hreg.
  - apply bool_of_count_false. unfold pair_count.
    rewrite (unfollow_run _ _ _ _ _ Hreg). cbn zeta.
    destruct sa'; [rewrite action_send_follows|];
      apply select_delete_where.
Qed.

(** C9: for every user and registered entity, [unfollow] with
    [send_action=True] sends exactly one "stopped following" event with
    the entity as target, in every world: whether a relationship was
    there to delete plays no part. *)
Theorem unfollow_sends_unconditionally u o w :
  isRegistered env (model o) = true →
  signals (world_of (unfollow env u o true w))
  = signals w ++ [following_event "stopped following" u o].
Proof.
  intros Hreg. rewrite (unfollow_run _ _ _ _ _ Hreg). cbn zeta.
  rewrite action_send_signals. reflexivity.
Qed.

(** C5: for a registered actor and keyword arguments that supply neither
    target nor action_object, [action_handler] returns, having saved
    exactly one record whose two references are empty and having called
    [send_email_notifications] once, on that record: one batch joins the
    outbox. *)
Theorem action_handler_without_references vb kw a w :
  kw !! "sender" = Some (VObj a) →
  isRegistered env (model a) = true →
  supplied kw "target" = false →
  supplied kw "action_object" = false →
  ∃ rec,
    action_handler env vb kw w
    = (inr (), world_of (send_email_notifications env rec (add_action rec w)))
    ∧ actions (world_of (action_handler env vb kw w)) = actions w ++ [rec]
    ∧ outbox (world_of (action_handler env vb kw w))
      = outbox w ++ [email_batch env (notified_users env (follows w) rec) rec]
    ∧ actor_content_type rec = get_for_model a
    ∧ actor_object_id rec = pk a
    ∧ verb rec = vb
    ∧ target_object_id rec = None
    ∧ target_content_type rec = None
    ∧ action_object_object_id rec = None
    ∧ action_object_content_type rec = None.
Proof.
  intros Hs Ha Ht Ho. exists (recorded env vb kw a).
  rewrite (action_handler_run _ _ _ _ _ Hs), Ha.
  unfold supplied in Ht, Ho. unfold unrecognized, recorded, reference.
  destruct (kw !! "target") as [[]|]; try discriminate;
    destruct (kw !! "action_object") as [[]|]; try discriminate;
    repeat split.
Qed.

(** C6: [set_all_email_notifications(user, enable)] returns, and in
    the table it leaves every relationship of the user has [send_email]
    equal to [enable] and its other columns as they were, every
    relationship of another user has all its columns, [send_email]
    included, as they were, and no key appears or disappears; nothing
    else in the world changes. *)
Theorem set_all_email_notifications_frame u b w :
  let r := set_all_email_notifications u b w in
  outcome r = inr ()
  ∧ actions (world_of r) = actions w
  ∧ signals (world_of r) = signals w
  ∧ outbox (world_of r) = outbox w
  ∧ ∀ k,
      match follows w !! k with
      | Some f =>
          ∃ f',
            follows (world_of r) !! k = Some f'
            ∧ user_id f' = user_id f
            ∧ object_id f' = object_id f
            ∧ content_type f' = content_type f
            ∧ actor_only f' = actor_only f
            ∧ send_email f' =
                if bool_decide (user_id f = user_pk u) then b
                else send_email f
      | None => follows (world_of r) !! k = None
      end.
Proof.
  destruct (set_all_email_notifications_run u b w) as (t & Hrun & Ht).
  cbn zeta. rewrite Hrun. repeat split. intros k.
  unfold world_of; simpl. rewrite Ht.
  destruct (follows w !! k) as [f|]; [|reflexivity]. simpl.
  eexists. split; [reflexivity|]. unfold owned_by.
  destruct (bool_decide (user_id f = user_pk u)); repeat split.
Qed.

(** C10: every record a call of [action_handler] adds to the store has
    no key ["signal"] in its payload, whatever the keyword arguments and
    the feature flag. *)
Theorem signal_never_stored vb kw w :
  ∃ new,
    actions (world_of (action_handler env vb kw w)) = actions w ++ new
    ∧ Forall (λ rec, ∀ d, data rec = Some d → d !! "signal" = None) new.
Proof.
  destruct (action_handler_cases env vb kw w)
    as [[e ->]|(a & _ & _ & _ & _ & ->)].
  - exists []. split; [symmetry; apply app_nil_r|constructor].
  - exists [recorded env vb kw a]. split; [reflexivity|].
    constructor; [|constructor]. intros d. unfold recorded; simpl.
    destruct (_ && _); [|discriminate]. intros [= <-].
    unfold leftover. cbn [foldl consumed].
    rewrite !lookup_delete_ne by done. apply lookup_delete_eq.
Qed.


(** C8 (as the code has it): every record a call of [action_handler]
    adds to the store carries the leftover keyword arguments as payload if
    the feature flag is on and at least one keyword argument is left over,
    and carries no payload otherwise; a call that returns adds exactly one
    record and a call that raises adds none. *)
Theorem payload_stored_when_flag_and_leftover vb kw w :
  let r := action_handler env vb kw w in
  ∃ new,
    actions (world_of r) = actions w ++ new
    ∧ length new = (if outcome r is inr _ then 1 else 0)
    ∧ Forall
        (λ rec,
           data rec =
           if USE_JSONFIELD env && bool_decide (leftover kw ≠ ∅)
           then Some (leftover kw) else None)
        new.
Proof.
  cbn zeta.
  destruct (action_handler_cases env vb kw w)
    as [[e ->]|(a & _ & _ & _ & _ & ->)].
  - exists []. split; [symmetry; apply app_nil_r|]. split; constructor.
  - exists [recorded env vb kw a]. split; [reflexivity|].
    split; [reflexivity|]. constructor; [|constructor].
    unfold recorded; simpl.
    assert (bool_of_count (size (leftover kw))
            = bool_decide (leftover kw ≠ ∅)) as ->; [|reflexivity].
    unfold bool_of_count.
    destruct (decide (leftover kw = ∅)) as [E|E].
    + rewrite E, map_size_empty, bool_decide_eq_false_2 by (intros H; done).
      reflexivity.
    + rewrite bool_decide_eq_true_2 by done.
      apply negb_true_iff, Nat.eqb_neq.
      intros H%map_size_empty_iff. done.
Qed.

(** C1 (as the code has it): [follow] looks the relationship up by user,
    entity, [actor_only] and [send_email] together.  For a registered
    entity and a pair with no relationship yet, calling [follow] twice
    leaves exactly one relationship for the pair when the second call uses
    the flags of the first or the table itself is unique on the pair; with
    the flags of the first, the second call returns the relationship the
    first returned and changes nothing.  Where the table is unique on the
    pair, at most one relationship per pair is kept through every sequence
    of calls of the module. *)
Theorem follow_twice_one_relationship u o sa sa' ao em ao' em' w :
  isRegistered env (model o) = true →
  pair_count u o w = 0 →
  (ao', em') = (ao, em) ∨ unique_together env = true →
  let w1 := world_of (follow env u o sa ao em w) in
  pair_count u o (world_of (follow env u o sa' ao' em' w1)) = 1
  ∧ (∀ f, outcome (follow env u o sa ao em w) = inr f →
          (ao', em') = (ao, em) →
          follow env u o sa' ao' em' w1 = (inr f, w1))
  ∧ (unique_together env = true →
     ∀ cs w0, one_per_pair w0 → one_per_pair (perform_all env cs w0)).
Proof.
  intros Hreg H0 Hd w1.
  destruct (follow_cases env u o sa ao em w Hreg)
    as [[_ [Hsel|[_ Hc]]]|(Hsel & _ & Hf & _)];
    [apply same_row_pair_count in Hsel; done | done |].
  fold w1 in Hf.
  assert (Hsel1 : select (same_row (follow_row u o ao em)) (follows w1)
                  = [(fresh (dom (follows w)), follow_row u o ao em)])
    by (rewrite Hf; apply select_same_row_insert;
        [apply fresh_key_free|exact Hsel]).
  assert (H1 : pair_count u o w1 = 1).
  { unfold pair_count. rewrite Hf, pair_count_insert by apply fresh_key_free.
    rewrite follows_of_follow_row. unfold pair_count in H0.
    rewrite H0. reflexivity. }
  split; [|split].
  - destruct (follow_cases env u o sa' ao' em' w1 Hreg)
      as [[-> _]|(Hsel' & Hc' & _)]; [exact H1|].
    exfalso. destruct Hd as [[= -> ->]|Hu].
    + rewrite Hsel1 in Hsel'. discriminate.
    + rewrite Hu, H1 in Hc'. discriminate.
  - intros f Hout [= -> ->].
    destruct (follow env u o sa ao em w) as [[e|f0] w1'] eqn:E;
      [discriminate|].
    injection Hout as ->.
    destruct (follow_created env _ _ _ _ _ _ _ _ E Hsel) as [-> _].
    apply follow_found; [exact Hreg|exact Hsel1].
  - intros Hu cs w0. apply perform_all_one_per_pair, Hu.
Qed.

(** C4 (as the code has it): for a registered entity and a pair with no
    relationship yet, [follow] with [send_action=True] sends exactly one
    "started following" event, from the user and with the entity as
    target.  A repeated [follow] of the pair sends nothing when it uses
    the flags of the earlier call or the table is unique on the pair,
    whatever the earlier call found and sent. *)
Theorem follow_sends_on_creation_only u o ao em sa' ao' em' w :
  isRegistered env (model o) = true →
  pair_count u o w = 0 →
  (ao', em') = (ao, em) ∨ unique_together env = true →
  signals (world_of (follow env u o true ao em w))
  = signals w ++ [following_event "started following" u o]
  ∧ ∀ sa0 w0,
      let w1 := world_of (follow env u o sa0 ao em w0) in
      signals (world_of (follow env u o sa' ao' em' w1)) = signals w1.
Proof.
  intros Hreg H0 Hd. split.
  - destruct (follow_cases env u o true ao em w Hreg)
      as [[_ [Hsel|[_ Hc]]]|(_ & _ & _ & Hs)];
      [apply same_row_pair_count in Hsel; done | done | exact Hs].
  - intros sa0 w0. cbn zeta.
    pose proof (follow_keeps_relationship env u o sa0 ao em w0 Hreg) as Hk.
    pose proof (follow_cases env u o sa0 ao em w0 Hreg) as Hfirst.
    cbn zeta in Hfirst. revert Hk Hfirst.
    generalize (world_of (follow env u o sa0 ao em w0)). intros w1 Hk Hfirst.
    destruct (follow_cases env u o sa' ao' em' w1 Hreg)
      as [[-> _]|(Hsel' & Hc' & _)]; [reflexivity|].
    exfalso.
    assert (Hb : bool_of_count (pair_count u o w1) = true)
      by (apply bool_of_count_true, Hk).
    rewrite Hb, andb_true_r in Hc'.
    destruct Hd as [[= -> ->]|Hu]; [|congruence].
    destruct Hfirst as [[Hw [Hsel|[Hu _]]]|(_ & _ & Hf & _)].
    + rewrite Hw in Hsel'. done.
    + congruence.
    + eapply select_nonempty; [| |exact Hsel'].
      * rewrite Hf. apply lookup_insert_eq.
      * unfold same_row. apply bool_decide_eq_true_2. reflexivity.
Qed.

(** C2 (as the code has it): where no action is sent or the user's own
    kind is registered, each of [follow], [unfollow] and [is_following]
    raises [UnregisteredEntityError] exactly when the kind of the entity
    is not registered, and [action_handler], given its sender, raises it
    exactly when the actor, or a supplied target or action_object, is of
    no registered kind; a call that raises it leaves the world as it
    was. *)
Theorem unregistered_entity_error u o sa ao em vb kw actor w :
  sa = false ∨ isRegistered env User_model = true →
  kw !! "sender" = Some actor →
  ((raises UnregisteredEntityError (follow env u o sa ao em w)
    ↔ isRegistered env (model o) = false)
   ∧ (raises UnregisteredEntityError (follow env u o sa ao em w) →
      world_of (follow env u o sa ao em w) = w))
  ∧ ((raises UnregisteredEntityError (unfollow env u o sa w)
      ↔ isRegistered env (model o) = false)
     ∧ (raises UnregisteredEntityError (unfollow env u o sa w) →
        world_of (unfollow env u o sa w) = w))
  ∧ ((raises UnregisteredEntityError (is_following env u o w)
      ↔ isRegistered env (model o) = false)
     ∧ world_of (is_following env u o w) = w)
  ∧ ((raises UnregisteredEntityError (action_handler env vb kw w)
      ↔ acceptable env actor = false
        ∨ unrecognized env kw "target" = true
        ∨ unrecognized env kw "action_object" = true)
     ∧ (raises UnregisteredEntityError (action_handler env vb kw w) →
        world_of (action_handler env vb kw w) = w)).
Proof.
  intros Hsa Hs. unfold raises. repeat apply conj.
  - intros H. destruct (isRegistered env (model o)) eqn:Hreg; [|done].
    exfalso. eapply follow_recognized; eauto.
  - intros Hreg. rewrite (follow_unregistered _ _ _ _ _ _ _ Hreg).
    reflexivity.
  - intros H. destruct (isRegistered env (model o)) eqn:Hreg.
    + exfalso. eapply follow_recognized; eauto.
    + rewrite (follow_unregistered _ _ _ _ _ _ _ Hreg). reflexivity.
  - intros H. destruct (isRegistered env (model o)) eqn:Hreg; [|done].
    exfalso. eapply unfollow_recognized; eauto.
  - intros Hreg. rewrite (unfollow_unregistered _ _ _ _ _ Hreg).
    reflexivity.
  - intros H. destruct (isRegistered env (model o)) eqn:Hreg.
    + exfalso. eapply unfollow_recognized; eauto.
    + rewrite (unfollow_unregistered _ _ _ _ _ Hreg). reflexivity.
  - rewrite is_following_run.
    destruct (isRegistered env (model o)); done.
  - rewrite is_following_run.
    destruct (isRegistered env (model o)); done.
  - rewrite is_following_run.
    destruct (isRegistered env (model o)); reflexivity.
  - rewrite (action_handler_run _ _ _ _ _ Hs).
    destruct actor as [| | | | |a|]; simpl; try (intros _; left; done).
    destruct (isRegistered env (model a)),
      (unrecognized env kw "target"),
      (unrecognized env kw "action_object"); simpl; intros H;
      try discriminate; auto.
  - rewrite (action_handler_run _ _ _ _ _ Hs).
    destruct actor as [| | | | |a|]; simpl; try done.
    destruct (isRegistered env (model a)),
      (unrecognized env kw "target"),
      (unrecognized env kw "action_object"); simpl; intros H;
      try reflexivity; destruct H as [H|[H|H]]; discriminate.
  - destruct (action_handler_cases env vb kw w)
      as [[e ->]|(a & _ & _ & _ & _ & ->)]; [reflexivity|discriminate].
Qed.

End Claims.

Lemma follow_then_is_following_witness :
  isRegistered env_open (model post) = true
  ∧ outcome (is_following env_open alice post
               (world_of (follow env_open alice post true true false
                            world_followed)))
    = inr true
  ∧ outcome (is_following env_open alice post
               (world_of (unfollow env_open alice post true world_followed)))
    = inr false.
Proof.
  split; [reflexivity|].
  apply (follow_then_is_following env_open alice post true true false true).
  reflexivity.
Defined.

Lemma unfollow_sends_unconditionally_witness :
  isRegistered env_open (model post) = true
  ∧ pair_count alice post world0 = 0
  ∧ signals (world_of (unfollow env_open alice post true world0))
    = signals world0 ++ [following_event "stopped following" alice post].
Proof.
  split; [reflexivity|]. split; [reflexivity|].
  apply (unfollow_sends_unconditionally env_open alice post world0).
  reflexivity.
Defined.

Lemma action_handler_without_references_witness :
  post_kwargs !! "sender" = Some (VObj post)
  ∧ isRegistered env_open (model post) = true
  ∧ supplied post_kwargs "target" = false
  ∧ supplied post_kwargs "action_object" = false
  ∧ ∃ rec,
      actions (world_of (action_handler env_open "was updated" post_kwargs
                           world_followed))
      = actions world_followed ++ [rec]
      ∧ target_object_id rec = None
      ∧ action_object_object_id rec = None.
Proof.
  assert (Hs : post_kwargs !! "sender" = Some (VObj post)) by reflexivity.
  assert (Hr : isRegistered env_open (model post) = true) by reflexivity.
  assert (Ht : supplied post_kwargs "target" = false) by reflexivity.
  assert (Ho : supplied post_kwargs "action_object" = false) by reflexivity.
  repeat (split; [assumption|]).
  destruct (action_handler_without_references env_open "was updated"
              post_kwargs post world_followed Hs Hr Ht Ho)
    as (rec & _ & Hrec & _ & _ & _ & _ & Htgt & _ & Hobj & _).
  exists rec. repeat split; assumption.
Defined.



(** C8, the claim as stated fails: with the feature flag on and no
    keyword argument left over, the saved record has no payload (not an
    empty one). *)
Lemma payload_absent_without_leftover :
  USE_JSONFIELD env_open = true
  ∧ leftover {["sender" := VObj post]} = ∅
  ∧ outcome (action_handler env_open "was updated"
               {["sender" := VObj post]} world0) = inr ()
  ∧ data <$> actions (world_of (action_handler env_open "was updated"
                                  {["sender" := VObj post]} world0))
    = [None].
Proof. vm_compute. repeat split; reflexivity. Qed.

Lemma follow_twice_one_relationship_witness :
  isRegistered env_open (model post) = true
  ∧ pair_count alice post world0 = 0
  ∧ ((true, false) = (true, false) ∨ unique_together env_open = true)
  ∧ pair_count alice post
      (world_of (follow env_open alice post false true false
                   (world_of (follow env_open alice post true true false
                                world0))))
    = 1.
Proof.
  assert (Hr : isRegistered env_open (model post) = true) by reflexivity.
  assert (H0 : pair_count alice post world0 = 0) by reflexivity.
  assert (Hd : (true, false) = (true, false)
               ∨ unique_together env_open = true) by (left; reflexivity).
  repeat (split; [assumption|]).
  exact (proj1 (follow_twice_one_relationship env_open alice post true false
                  true false true false world0 Hr H0 Hd)).
Defined.

(** C1, the claim as stated fails: two calls that differ in [actor_only]
    both return, each with a relationship of its own, and the pair has
    two. *)
Lemma follow_twice_two_relationships :
  let r1 := follow env_open alice post true true false world0 in
  let r2 := follow env_open alice post true false false (world_of r1) in
  pair_count alice post world0 = 0
  ∧ outcome r1 = inr (1%positive, follow_row alice post true false)
  ∧ outcome r2 = inr (2%positive, follow_row alice post false false)
  ∧ pair_count alice post (world_of r2) = 2.
Proof. vm_compute. repeat split; reflexivity. Qed.

(** With the table unique on the pair the second of these calls is
    refused instead, and the pair keeps its one relationship. *)
Example follow_twice_unique_refused :
  let r1 := follow env_unique alice post true true false world0 in
  let r2 := follow env_unique alice post true false false (world_of r1) in
  outcome r2 = inl IntegrityError
  ∧ pair_count alice post (world_of r2) = 1.
Proof. vm_compute. split; reflexivity. Qed.

Lemma follow_sends_on_creation_only_witness :
  isRegistered env_open (model post) = true
  ∧ pair_count alice post world0 = 0
  ∧ ((true, false) = (true, false) ∨ unique_together env_open = true)
  ∧ signals (world_of (follow env_open alice post true true false world0))
    = signals world0 ++ [following_event "started following" alice post].
Proof.
  assert (Hr : isRegistered env_open (model post) = true) by reflexivity.
  assert (H0 : pair_count alice post world0 = 0) by reflexivity.
  assert (Hd : (true, false) = (true, false)
               ∨ unique_together env_open = true) by (left; reflexivity).
  repeat (split; [assumption|]).
  exact (proj1 (follow_sends_on_creation_only env_open alice post true false
                  true true false world0 Hr H0 Hd)).
Defined.

(** C4, the claim as stated fails: a repeated [follow] of the pair that
    differs in [actor_only] creates a relationship again and sends the
    event a second time. *)
Lemma repeated_follow_sends_again :
  let ev := following_event "started following" alice post in
  let r1 := follow env_open alice post true true false world0 in
  let r2 := follow env_open alice post true false false (world_of r1) in
  signals (world_of r1) = [ev]
  ∧ signals (world_of r2) = [ev; ev].
Proof. vm_compute. split; reflexivity. Qed.

Lemma unregistered_entity_error_witness :
  (true = false ∨ isRegistered env_open User_model = true)
  ∧ post_kwargs !! "sender" = Some (VObj post)
  ∧ (raises UnregisteredEntityError
       (follow env_open alice post true true false world0)
     ↔ isRegistered env_open (model post) = false).
Proof.
  assert (Hu : true = false ∨ isRegistered env_open User_model = true)
    by (right; reflexivity).
  assert (Hs : post_kwargs !! "sender" = Some (VObj post)) by reflexivity.
  repeat (split; [assumption|]).
  exact (proj1 (proj1 (unregistered_entity_error env_open alice post true
                         true false "was updated" post_kwargs (VObj post)
                         world0 Hu Hs))).
Defined.

(** C2, the claim as stated fails: where the user's own kind is not
    registered, a first [follow] of a registered entity that sends its
    action raises [UnregisteredEntityError] after the relationship was
    created and the event sent, and the same call without the action
    returns. *)
Lemma follow_raises_after_creating :
  let r := follow env_posts_only alice post true true false world0 in
  let r' := follow env_posts_only alice post false true false world0 in
  isRegistered env_posts_only (model post) = true
  ∧ isRegistered env_posts_only User_model = false
  ∧ outcome r = inl UnregisteredEntityError
  ∧ pair_count alice post world0 = 0
  ∧ pair_count alice post (world_of r) = 1
  ∧ world_of r ≠ world0
  ∧ outcome r' = inr (1%positive, follow_row alice post true false).
Proof.
  vm_compute. repeat split; try reflexivity. intros H. discriminate H.
Qed.

(** ** Further properties of the module *)

Section More.

Variable env : Env.

(** *** The action recorder *)

Lemma leftover_lookup (kw : gmap string pyval) k :
  leftover kw !! k = if bool_decide (k ∈ consumed) then None else kw !! k.
Proof.
  unfold leftover. cbn [foldl consumed]. case_bool_decide as Hk.
  - rewrite !lookup_delete. unfold consumed in Hk.
    repeat (apply elem_of_cons in Hk as [->|Hk]; [reflexivity|]).
    inversion Hk.
  - rewrite !lookup_delete_ne; [reflexivity|..];
      intros <-; apply Hk; unfold consumed;
      repeat (first [left; fail | apply list_elem_of_further]); left.
Qed.

(** X1: without a ["sender"] among its keyword arguments
    [action_handler] raises [KeyError] before it checks or saves
    anything, whatever else it was given. *)
Theorem action_handler_missing_sender vb kw w :
  kw !! "sender" = None →
  action_handler env vb kw w = (inl (KeyError "sender"), w).
Proof.
  intros Hs. unfold action_handler, pop. cbn [snd].
  rewrite lookup_delete_ne, Hs by done. reflexivity.
Qed.

(** X2: the record of a call that returns has the sender as actor and
    the verb it was given; [public] is the truth value of the argument
    given under that name and true when none is given (so an explicit
    [None] makes the record non-public), [description] is the argument or
    [None], and [timestamp] is the argument or the current time. *)
Theorem action_handler_scalar_fields vb kw w :
  outcome (action_handler env vb kw w) = inr () →
  ∃ a rec,
    kw !! "sender" = Some (VObj a)
    ∧ actions (world_of (action_handler env vb kw w)) = actions w ++ [rec]
    ∧ actor_content_type rec = get_for_model a
    ∧ actor_object_id rec = pk a
    ∧ verb rec = vb
    ∧ public rec =
        match kw !! "public" with
        | None => true
        | Some v => truthy v
        end
    ∧ description rec = default VNone (kw !! "description")
    ∧ timestamp rec = default (VDatetime (now env)) (kw !! "timestamp").
Proof.
  intros Hout.
  destruct (action_handler_cases env vb kw w)
    as [[e He]|(a & Hs & _ & _ & _ & Hrun)];
    [rewrite He in Hout; discriminate|].
  exists a, (recorded env vb kw a). rewrite Hrun.
  repeat split; try done.
  unfold recorded; simpl. destruct (kw !! "public"); reflexivity.
Qed.

(** X3: the record of a call that returns refers to the target and to
    the action object by primary key and content type when a model
    instance was supplied under that name, and has both fields of the
    reference empty when the name is absent or [None]; a call given
    anything else under one of the names does not return. *)
Theorem action_handler_references vb kw w :
  outcome (action_handler env vb kw w) = inr () →
  ∃ rec,
    actions (world_of (action_handler env vb kw w)) = actions w ++ [rec]
    ∧ match kw !! "target" with
      | Some (VObj t) =>
          target_object_id rec = Some (pk t)
          ∧ target_content_type rec = Some (get_for_model t)
          ∧ isRegistered env (model t) = true
      | None | Some VNone =>
          target_object_id rec = None ∧ target_content_type rec = None
      | Some _ => False
      end
    ∧ match kw !! "action_object" with
      | Some (VObj o) =>
          action_object_object_id rec = Some (pk o)
          ∧ action_object_content_type rec = Some (get_for_model o)
          ∧ isRegistered env (model o) = true
      | None | Some VNone =>
          action_object_object_id rec = None
          ∧ action_object_content_type rec = None
      | Some _ => False
      end.
Proof.
  intros Hout.
  destruct (action_handler_cases env vb kw w)
    as [[e He]|(a & Hs & _ & Ht & Ho & Hrun)];
    [rewrite He in Hout; discriminate|].
  exists (recorded env vb kw a). rewrite Hrun.
  split; [reflexivity|].
  unfold recorded, reference, unrecognized, acceptable in *; simpl.
  split.
  - destruct (kw !! "target") as [[| | | | |t|]|]; try done.
    apply negb_false_iff in Ht. done.
  - destruct (kw !! "action_object") as [[| | | | |o|]|]; try done.
    apply negb_false_iff in Ho. done.
Qed.

(** X4: the payload of a record [action_handler] stores holds none of
    the seven names the handler consumes itself and every other keyword
    argument with the value it was given. *)
Theorem payload_is_the_other_kwargs vb kw w :
  ∃ new,
    actions (world_of (action_handler env vb kw w)) = actions w ++ new
    ∧ Forall
        (λ rec, ∀ d, data rec = Some d →
           ∀ k, d !! k = if bool_decide (k ∈ consumed) then None
                         else kw !! k)
        new.
Proof.
  destruct (action_handler_cases env vb kw w)
    as [[e ->]|(a & _ & _ & _ & _ & ->)].
  - exists []. split; [symmetry; apply app_nil_r|constructor].
  - exists [recorded env vb kw a]. split; [reflexivity|].
    constructor; [|constructor]. intros d. unfold recorded; simpl.
    destruct (_ && _); [|discriminate]. intros [= <-] k.
    apply leftover_lookup.
Qed.

(** X5: [action_handler] never touches the Follow table and never sends
    a signal.  It adds at most one record and hands the mail gateway at
    most one batch, a batch only after a record; a call that returns has
    added exactly one record and handed over exactly one batch. *)
Theorem action_handler_frame vb kw w :
  let r := action_handler env vb kw w in
  follows (world_of r) = follows w
  ∧ signals (world_of r) = signals w
  ∧ ∃ new batches,
      actions (world_of r) = actions w ++ new
      ∧ outbox (world_of r) = outbox w ++ batches
      ∧ length batches ≤ length new ≤ 1
      ∧ (outcome r = inr () → length new = 1 ∧ length batches = 1).
Proof.
  cbn zeta.
  destruct (action_handler_cases env vb kw w)
    as [[e ->]|(a & _ & _ & _ & _ & ->)]; repeat split.
  - exists [], []. simpl. rewrite !app_nil_r. repeat split; try lia.
    all: discriminate.
  - eexists [_], [_]. simpl. repeat split; lia.
Qed.

(** *** The follow registry *)

Lemma set_follows_id w : set_follows (follows w) w = w.
Proof. destruct w; reflexivity. Qed.

Lemma delete_where_id P (t : gmap positive Follow) :
  (∀ k r, t !! k = Some r → P r = false) → delete_where P t = t.
Proof.
  intros H. apply map_eq. intros k.
  destruct (t !! k) as [r|] eqn:E.
  - apply delete_where_lookup. split; [done|]. eapply H, E.
  - destruct (delete_where P t !! k) as [r|] eqn:E'; [|done].
    apply delete_where_lookup in E' as [E' _]. congruence.
Qed.

Lemma delete_where_idem P (t : gmap positive Follow) :
  delete_where P (delete_where P t) = delete_where P t.
Proof.
  apply delete_where_id. intros k r [_ H]%delete_where_lookup. exact H.
Qed.

Lemma pair_count_zero u o w k r :
  pair_count u o w = 0 → follows w !! k = Some r → follows_of u o r = false.
Proof.
  intros H0%nil_length_inv Hk.
  destruct (follows_of u o r) eqn:E; [|done].
  exfalso. eapply select_nonempty; eauto.
Qed.

Lemma follow_world u o sa ao em w :
  let r := follow env u o sa ao em w in
  world_of r = w
  ∨ (isRegistered env (model o) = true
     ∧ select (same_row (follow_row u o ao em)) (follows w) = []
     ∧ follows (world_of r)
       = <[fresh (dom (follows w)) := follow_row u o ao em]> (follows w)
     ∧ (sa = false →
        world_of r
        = set_follows
            (<[fresh (dom (follows w)) := follow_row u o ao em]> (follows w))
            w)).
Proof.
  cbn zeta. destruct (isRegistered env (model o)) eqn:Hreg;
    [|left; rewrite (follow_unregistered _ _ _ _ _ _ _ Hreg); reflexivity].
  destruct (follow_cases env u o sa ao em w Hreg)
    as [[Hw _]|(Hsel & Hc & Hf & _)]; [left; exact Hw|].
  right. repeat split; try done. intros ->.
  rewrite (follow_run _ _ _ _ _ _ _ Hreg), Hsel, Hc. reflexivity.
Qed.

(** X6: without [send_action], [follow] and [unfollow] change nothing
    but the Follow table: no signal is sent, no action recorded and no
    mail handed over, whether they return or raise. *)
Theorem without_send_action_only_the_table u o ao em w :
  let w1 := world_of (follow env u o false ao em w) in
  let w2 := world_of (unfollow env u o false w) in
  (actions w1 = actions w ∧ signals w1 = signals w ∧ outbox w1 = outbox w)
  ∧ (actions w2 = actions w ∧ signals w2 = signals w
     ∧ outbox w2 = outbox w).
Proof.
  cbn zeta. split.
  - destruct (follow_world u o false ao em w) as [->|(_ & _ & _ & H)];
      [done|]. rewrite H by done. done.
  - destruct (isRegistered env (model o)) eqn:Hreg.
    + rewrite (unfollow_run _ _ _ _ _ Hreg). done.
    + rewrite (unfollow_unregistered _ _ _ _ _ Hreg). done.
Qed.

(** X7: [follow] never removes or alters a relationship that is there:
    every row of the table is still there, under its key, and the table
    has grown by at most one row.  The relationship a call returns is in
    the table under the key returned and carries the flags of the
    call. *)
Theorem follow_only_adds u o sa ao em w :
  let r := follow env u o sa ao em w in
  (∀ k f, follows w !! k = Some f → follows (world_of r) !! k = Some f)
  ∧ size (follows (world_of r)) ≤ S (size (follows w))
  ∧ ∀ i f, outcome r = inr (i, f) →
      follows (world_of r) !! i = Some f ∧ f = follow_row u o ao em.
Proof.
  cbn zeta. split; [|split].
  - intros k f Hk.
    destruct (follow_world u o sa ao em w) as [->|(_ & _ & -> & _)];
      [done|].
    rewrite lookup_insert_ne; [done|]. intros <-.
    rewrite fresh_key_free in Hk. discriminate.
  - destruct (follow_world u o sa ao em w) as [->|(_ & _ & -> & _)];
      [lia|].
    rewrite map_size_insert_None by apply fresh_key_free. lia.
  - intros i f Hout.
    destruct (follow env u o sa ao em w) as [[e|f0] w1] eqn:E;
      [discriminate|].
    injection Hout as ->.
    pose proof (follow_returns_registered _ _ _ _ _ _ _ _ _ E) as Hreg.
    destruct (select (same_row (follow_row u o ao em)) (follows w))
      as [|f1 [|f2 l]] eqn:Hsel.
    + destruct (follow_created _ _ _ _ _ _ _ _ _ E Hsel) as [[= -> ->] Hf].
      cbn [world_of snd]. rewrite Hf. split; [apply lookup_insert_eq|done].
    + rewrite (follow_found _ _ _ _ _ _ _ _ Hreg Hsel) in E.
      injection E as -> <-.
      assert (H : (i, f) ∈ select (same_row (follow_row u o ao em))
                            (follows w)) by (rewrite Hsel; left).
      apply elem_of_select in H as [Hi Hr].
      split; [exact Hi|]. apply bool_decide_eq_true in Hr. exact Hr.
    + rewrite (follow_run _ _ _ _ _ _ _ Hreg), Hsel in E. discriminate.
Qed.

(** X8: when two rows of the table agree with the call on all five
    columns, [follow] of a registered entity raises
    [MultipleObjectsReturned] and changes nothing. *)
Theorem follow_ambiguous u o sa ao em w i j :
  isRegistered env (model o) = true →
  i ≠ j →
  follows w !! i = Some (follow_row u o ao em) →
  follows w !! j = Some (follow_row u o ao em) →
  follow env u o sa ao em w = (inl MultipleObjectsReturned, w).
Proof.
  intros Hreg Hij Hi Hj. rewrite (follow_run _ _ _ _ _ _ _ Hreg).
  assert (Hin : ∀ k, follows w !! k = Some (follow_row u o ao em) →
                (k, follow_row u o ao em)
                ∈ select (same_row (follow_row u o ao em)) (follows w)).
  { intros k Hk. apply elem_of_select. split; [exact Hk|].
    apply bool_decide_eq_true_2. reflexivity. }
  pose proof (Hin i Hi) as Hi'. pose proof (Hin j Hj) as Hj'.
  destruct (select _ _) as [|f [|f' l]]; [inversion Hi'| |reflexivity].
  apply list_elem_of_singleton in Hi', Hj'. congruence.
Qed.

Lemma unfollow_follows u o sa w :
  isRegistered env (model o) = true →
  follows (world_of (unfollow env u o sa w))
  = delete_where (follows_of u o) (follows w).
Proof.
  intros Hreg. rewrite (unfollow_run _ _ _ _ _ Hreg). cbn zeta.
  destruct sa; [apply action_send_follows|reflexivity].
Qed.

Lemma unfollow_pair_count u o sa w :
  isRegistered env (model o) = true →
  pair_count u o (world_of (unfollow env u o sa w)) = 0.
Proof.
  intros Hreg. unfold pair_count.
  rewrite (unfollow_follows _ _ _ _ Hreg), select_delete_where. reflexivity.
Qed.

(** X9: [unfollow] of a registered entity removes every relationship of
    the pair, however many there are and whatever their flags, and leaves
    every other row of the table under its key as it was. *)
Theorem unfollow_removes_the_pair_only u o sa w :
  isRegistered env (model o) = true →
  ∀ k,
    follows (world_of (unfollow env u o sa w)) !! k =
    match follows w !! k with
    | Some f => if follows_of u o f then None else Some f
    | None => None
    end.
Proof.
  intros Hreg k. rewrite (unfollow_follows _ _ _ _ Hreg).
  destruct (follows w !! k) as [f|] eqn:Hk.
  - destruct (follows_of u o f) eqn:Hf.
    + destruct (delete_where _ _ !! k) as [f'|] eqn:E; [|done].
      apply delete_where_lookup in E as [E1 E2]. congruence.
    + apply delete_where_lookup. done.
  - destruct (delete_where _ _ !! k) as [f'|] eqn:E; [|done].
    apply delete_where_lookup in E as [E1 _]. congruence.
Qed.

(** X10: a second [unfollow] of the pair, without [send_action], is a
    no-op: it leaves the world exactly as the first one left it. *)
Theorem unfollow_again_changes_nothing u o sa w :
  let w1 := world_of (unfollow env u o sa w) in
  world_of (unfollow env u o false w1) = w1.
Proof.
  cbn zeta. destruct (isRegistered env (model o)) eqn:Hreg.
  - rewrite (unfollow_run _ _ _ false _ Hreg). cbn zeta. cbn [world_of snd].
    rewrite (unfollow_follows _ _ _ _ Hreg), delete_where_idem.
    rewrite <- (unfollow_follows u o sa w Hreg). apply set_follows_id.
  - rewrite !(unfollow_unregistered _ _ _ _ _ Hreg). reflexivity.
Qed.

(** X11: for a registered entity and a pair with no relationship,
    [follow] and then [unfollow] give back the Follow table as it was,
    whatever the flags of the two calls. *)
Theorem follow_then_unfollow_restores u o sa ao em sa' w :
  isRegistered env (model o) = true →
  pair_count u o w = 0 →
  follows (world_of (unfollow env u o sa'
                       (world_of (follow env u o sa ao em w))))
  = follows w.
Proof.
  intros Hreg H0. rewrite (unfollow_follows _ _ _ _ Hreg).
  destruct (follow_world u o sa ao em w) as [->|(_ & _ & -> & _)].
  - apply delete_where_id. intros k r. apply pair_count_zero, H0.
  - apply map_eq. intros k.
    destruct (decide (k = fresh (dom (follows w)))) as [->|Hne].
    + rewrite fresh_key_free.
      destruct (delete_where _ _ !! _) as [f|] eqn:E; [|done].
      apply delete_where_lookup in E as [E1 E2].
      rewrite lookup_insert_eq in E1. injection E1 as <-.
      rewrite follows_of_follow_row in E2. discriminate.
    + destruct (follows w !! k) as [f|] eqn:Hk.
      * apply delete_where_lookup. rewrite lookup_insert_ne by done.
        split; [exact Hk|]. eapply pair_count_zero; eauto.
      * destruct (delete_where _ _ !! k) as [f|] eqn:E; [|done].
        apply delete_where_lookup in E as [E1 _].
        rewrite lookup_insert_ne in E1 by done. congruence.
Qed.

(** X12: for a registered entity, [unfollow] and then [follow] leave the
    pair exactly one relationship, the one with the flags of the
    [follow], under whatever key the store gave it and whatever
    relationships the pair had before. *)
Theorem unfollow_then_follow_sets_flags u o sa sa' ao em w :
  isRegistered env (model o) = true →
  let w1 := world_of (unfollow env u o sa w) in
  let w2 := world_of (follow env u o sa' ao em w1) in
  ∃ i, select (follows_of u o) (follows w2) = [(i, follow_row u o ao em)].
Proof.
  intros Hreg. cbn zeta.
  pose proof (unfollow_pair_count u o sa w Hreg) as H0.
  revert H0. generalize (world_of (unfollow env u o sa w)). intros w1 H0.
  destruct (follow_cases env u o sa' ao em w1 Hreg)
    as [[_ [Hsel|[_ Hc]]]|(_ & _ & Hf & _)];
    [apply same_row_pair_count in Hsel; done | done |].
  exists (fresh (dom (follows w1))).
  rewrite Hf. apply Permutation_singleton_r.
  rewrite select_insert_fresh by apply fresh_key_free.
  rewrite follows_of_follow_row.
  apply nil_length_inv in H0. rewrite H0. reflexivity.
Qed.

Lemma select_disjoint_delete_where Q P (t : gmap positive Follow) :
  (∀ r, Q r = true → P r = false) →
  length (select Q (delete_where P t)) = length (select Q t).
Proof.
  intros H. apply Permutation_length, NoDup_Permutation;
    [apply NoDup_select..|].
  intros [k r]. rewrite !elem_of_select, delete_where_lookup.
  split; [intros [[Hk _] HQ]; done|].
  intros [Hk HQ]. repeat split; try done. apply H, HQ.
Qed.

Lemma follows_of_other_pair u o u' o' r :
  (user_pk u', pk o', model o') ≠ (user_pk u, pk o, model o) →
  follows_of u' o' r = true → follows_of u o r = false.
Proof.
  unfold follows_of, targets, get_for_model. intros Hne.
  rewrite !andb_true_iff, !bool_decide_eq_true. intros [[H1 H2] H3].
  apply not_true_is_false.
  rewrite !andb_true_iff, !bool_decide_eq_true. intros [[H4 H5] H6].
  apply Hne. congruence.
Qed.

(** X13: [follow] and [unfollow] of one pair leave the relationships of
    every other pair alone: for a user and entity that differ from theirs
    in user, primary key or model, the number of relationships, and with
    it the answer of [is_following], is what it was. *)
Theorem other_pairs_untouched u o sa ao em u' o' w :
  (user_pk u', pk o', model o') ≠ (user_pk u, pk o, model o) →
  pair_count u' o' (world_of (follow env u o sa ao em w))
  = pair_count u' o' w
  ∧ pair_count u' o' (world_of (unfollow env u o sa w))
    = pair_count u' o' w
  ∧ outcome (is_following env u' o' (world_of (follow env u o sa ao em w)))
    = outcome (is_following env u' o' w)
  ∧ outcome (is_following env u' o' (world_of (unfollow env u o sa w)))
    = outcome (is_following env u' o' w).
Proof.
  intros Hne.
  assert (H1 : pair_count u' o' (world_of (follow env u o sa ao em w))
               = pair_count u' o' w).
  { destruct (follow_world u o sa ao em w) as [->|(_ & _ & Hf & _)];
      [done|].
    unfold pair_count. rewrite Hf, pair_count_insert by apply fresh_key_free.
    destruct (follows_of u' o' (follow_row u o ao em)) eqn:E; [|done].
    apply (follows_of_other_pair u o u' o' _ Hne) in E.
    rewrite follows_of_follow_row in E. discriminate. }
  assert (H2 : pair_count u' o' (world_of (unfollow env u o sa w))
               = pair_count u' o' w).
  { destruct (isRegistered env (model o)) eqn:Hreg;
      [|rewrite (unfollow_unregistered _ _ _ _ _ Hreg); reflexivity].
    unfold pair_count. rewrite (unfollow_follows _ _ _ _ Hreg).
    apply select_disjoint_delete_where.
    intros r. apply follows_of_other_pair, Hne. }
  repeat split; try done.
  - rewrite !is_following_run, H1.
    destruct (isRegistered env (model o')); reflexivity.
  - rewrite !is_following_run, H2.
    destruct (isRegistered env (model o')); reflexivity.
Qed.

(** *** The bulk update, composed *)

(** X14: of two bulk updates for the same user the later one decides:
    running both is running the later one alone (so repeating an update
    changes nothing more). *)
Theorem set_all_email_notifications_last_wins u b1 b2 w :
  set_all_email_notifications u b2
    (world_of (set_all_email_notifications u b1 w))
  = set_all_email_notifications u b2 w.
Proof.
  destruct (set_all_email_notifications_run u b1 w) as (t1 & -> & Ht1).
  cbn [world_of snd].
  destruct (set_all_email_notifications_run u b2 (set_follows t1 w))
    as (t12 & -> & Ht12).
  destruct (set_all_email_notifications_run u b2 w) as (t2 & -> & Ht2).
  assert (E : t12 = t2); [|rewrite E; reflexivity].
  apply map_eq. intros k. rewrite Ht12, Ht2. cbn [follows set_follows].
  rewrite Ht1. destruct (follows w !! k) as [f|]; [|reflexivity]. simpl.
  f_equal. unfold owned_by.
  destruct (bool_decide (user_id f = user_pk u)) eqn:Hu;
    cbn [with_send_email user_id]; rewrite Hu; reflexivity.
Qed.

(** X15: the bulk update changes who follows what for nobody: every
    pair has as many relationships as before, and [is_following] answers
    as before. *)
Theorem set_all_email_notifications_keeps_following u b u' o' w :
  let w1 := world_of (set_all_email_notifications u b w) in
  pair_count u' o' w1 = pair_count u' o' w
  ∧ outcome (is_following env u' o' w1) = outcome (is_following env u' o' w).
Proof.
  cbn zeta.
  assert (H : pair_count u' o' (world_of (set_all_email_notifications u b w))
              = pair_count u' o' w).
  { destruct (set_all_email_notifications_run u b w) as (t & -> & Ht).
    assert (E : t = (λ r, if owned_by u r then with_send_email b r else r)
                      <$> follows w)
      by (apply map_eq; intros k; rewrite Ht, lookup_fmap; reflexivity).
    unfold pair_count, world_of; simpl. rewrite E.
    apply select_fmap_length.
    intros r. destruct (owned_by u r); reflexivity. }
  split; [exact H|]. rewrite !is_following_run, H.
  destruct (isRegistered env (model o')); reflexivity.
Qed.

(** X16: when every relationship of the user already has the flag at the
    value asked for, in particular when the user has none, the bulk
    update returns and leaves the world exactly as it was. *)
Theorem set_all_email_notifications_nothing_to_do u b w :
  (∀ k f, follows w !! k = Some f → user_id f = user_pk u →
          send_email f = b) →
  set_all_email_notifications u b w = (inr (), w).
Proof.
  intros H.
  destruct (set_all_email_notifications_run u b w) as (t & -> & Ht).
  assert (E : t = follows w); [|rewrite E, set_follows_id; reflexivity].
  apply map_eq. intros k. rewrite Ht.
  destruct (follows w !! k) as [f|] eqn:Hk; [|reflexivity]. simpl.
  unfold owned_by. case_bool_decide as Hu; [|reflexivity].
  specialize (H k f Hk Hu). destruct f; simpl in *. subst b. reflexivity.
Qed.

(** *** Notification mails *)

(** X17: a call of [send_email_notifications] that returns has called
    [send_mass_mail] exactly once, also when nobody is to be notified:
    the batch is empty exactly when no entry of the followers' list has
    notification enabled, and then an empty batch is what the gateway
    gets; otherwise the batch has as many mails as the list has entries
    with notification enabled. *)
Theorem send_email_notifications_one_batch a w :
  let r := send_email_notifications env a w in
  let followers := action_followers env (follows w) a in
  outcome r = inr () →
  ∃ batch,
    outbox (world_of r) = outbox w ++ [batch]
    ∧ length batch
      = length (filter (λ u : User, email_notification u = true) followers)
    ∧ (batch = []
       ↔ ∀ u, u ∈ followers → email_notification u = false).
Proof.
  cbn zeta. intros _.
  exists (email_batch env (notified_users env (follows w) a) a).
  split; [reflexivity|]. unfold email_batch, notified_users.
  rewrite filter_enabled.
  split; [apply length_map|]. split.
  - intros E%(f_equal length) u Hu. rewrite length_map in E.
    apply nil_length_inv in E. destruct (email_notification u) eqn:Hn; [|done].
    assert (H : u ∈ filter (λ u : User, email_notification u)
                       (action_followers env (follows w) a))
      by (apply list_elem_of_filter; split; [rewrite Hn; done|exact Hu]).
    rewrite E in H. inversion H.
  - intros H.
    destruct (filter _ _) as [|u l] eqn:E; [reflexivity|].
    assert (Hu : u ∈ filter (λ u : User, email_notification u)
                        (action_followers env (follows w) a))
      by (rewrite E; left).
    apply list_elem_of_filter in Hu as [Hn Hu].
    rewrite (H u Hu) in Hn. done.
Qed.

(** X18: in the batch a returning [send_email_notifications] hands over,
    the subject of every mail is the rendered subject template without the
    whitespace at its end: what is missing is whitespace only, the
    subject does not end in whitespace, and a rendered subject that does
    not end in whitespace is handed over as it is.  The body is the
    rendered body template as it is, the sender is the [CONTACT_EMAIL]
    setting, and the mail goes to exactly one address, that of a listed
    follower whose profile enables notification. *)
Theorem notification_mails a w :
  let r := send_email_notifications env a w in
  let rendered := render_to_string env subject_template a in
  outcome r = inr () →
  ∃ batch,
    outbox (world_of r) = outbox w ++ [batch]
    ∧ Forall
        (λ m : Mail,
           (∃ ws, rendered = subject m ++ ws
                  ∧ Forall (λ c, isspace env c = true) ws)
           ∧ match last (subject m) with
             | Some c => isspace env c = false
             | None => True
             end
           ∧ (match last rendered with
              | Some c => isspace env c = false
              | None => True
              end → subject m = rendered)
           ∧ message m = render_to_string env body_template a
           ∧ from_addr m = CONTACT_EMAIL env
           ∧ ∃ u, u ∈ action_followers env (follows w) a
                  ∧ email_notification u = true
                  ∧ recipient_list m = [email u])
        batch.
Proof.
  cbn zeta. intros _.
  exists (email_batch env (notified_users env (follows w) a) a).
  split; [reflexivity|].
  destruct (rstrip_split (isspace env)
              (render_to_string env subject_template a))
    as (ws & E & Hws & Hend).
  apply Forall_forall. intros m Hm.
  unfold email_batch in Hm. apply list_elem_of_In, in_map_iff in Hm
    as (u & <- & Hu%list_elem_of_In).
  unfold notified_users in Hu.
  apply list_elem_of_filter in Hu as [Hn%Is_true_true Hu]. simpl.
  repeat split; try done; eauto.
  intros H. apply rstrip_id, H.
Qed.

(** *** What the following events record *)





End More.

Lemma action_handler_missing_sender_witness :
  ({["target" := VObj post]} : gmap string pyval) !! "sender" = None
  ∧ action_handler env_open "commented" {["target" := VObj post]}
      world_followed
    = (inl (KeyError "sender"), world_followed).
Proof.
  assert (Hs : ({["target" := VObj post]} : gmap string pyval) !! "sender"
               = None) by reflexivity.
  split; [exact Hs|].
  exact (action_handler_missing_sender env_open "commented"
           {["target" := VObj post]} world_followed Hs).
Defined.

Lemma action_handler_scalar_fields_witness :
  outcome (action_handler env_open "commented" comment_kwargs world0)
  = inr ()
  ∧ ∃ a rec,
      comment_kwargs !! "sender" = Some (VObj a)
      ∧ actions (world_of (action_handler env_open "commented"
                             comment_kwargs world0))
        = actions world0 ++ [rec]
      ∧ actor_content_type rec = get_for_model a
      ∧ actor_object_id rec = pk a
      ∧ verb rec = "commented"
      ∧ public rec =
          match comment_kwargs !! "public" with
          | None => true
          | Some v => truthy v
          end
      ∧ description rec = default VNone (comment_kwargs !! "description")
      ∧ timestamp rec
        = default (VDatetime (now env_open)) (comment_kwargs !! "timestamp").
Proof.
  assert (Ho : outcome (action_handler env_open "commented" comment_kwargs
                          world0) = inr ()) by (vm_compute; reflexivity).
  split; [exact Ho|].
  exact (action_handler_scalar_fields env_open "commented" comment_kwargs
           world0 Ho).
Defined.

Lemma action_handler_references_witness :
  outcome (action_handler env_open "commented" comment_kwargs world0)
  = inr ()
  ∧ ∃ rec,
      actions (world_of (action_handler env_open "commented" comment_kwargs
                           world0))
      = actions world0 ++ [rec]
      ∧ target_object_id rec = Some 7%Z
      ∧ action_object_object_id rec = Some 8%Z.
Proof.
  assert (Ho : outcome (action_handler env_open "commented" comment_kwargs
                          world0) = inr ()) by (vm_compute; reflexivity).
  split; [exact Ho|].
  destruct (action_handler_references env_open "commented" comment_kwargs
              world0 Ho) as (rec & Hrec & Ht & Ha).
  exists rec. split; [exact Hrec|].
  change (comment_kwargs !! "target") with (Some (VObj post)) in Ht.
  change (comment_kwargs !! "action_object") with (Some (VObj comment)) in Ha.
  split; [apply Ht|apply Ha].
Defined.

Lemma follow_ambiguous_witness :
  isRegistered env_open (model post) = true
  ∧ 1%positive ≠ 2%positive
  ∧ follows world_ambiguous !! 1%positive
    = Some (follow_row alice post true true)
  ∧ follows world_ambiguous !! 2%positive
    = Some (follow_row alice post true true)
  ∧ follow env_open alice post true true true world_ambiguous
    = (inl MultipleObjectsReturned, world_ambiguous).
Proof.
  assert (Hr : isRegistered env_open (model post) = true) by reflexivity.
  assert (Hne : 1%positive ≠ 2%positive) by (intros H; discriminate H).
  assert (H1 : follows world_ambiguous !! 1%positive
               = Some (follow_row alice post true true))
    by (vm_compute; reflexivity).
  assert (H2 : follows world_ambiguous !! 2%positive
               = Some (follow_row alice post true true))
    by (vm_compute; reflexivity).
  repeat (split; [assumption|]).
  exact (follow_ambiguous env_open alice post true true true world_ambiguous
           1%positive 2%positive Hr Hne H1 H2).
Defined.

Lemma unfollow_removes_the_pair_only_witness :
  isRegistered env_open (model post) = true
  ∧ follows (world_of (unfollow env_open alice post true world_followed))
      !! 1%positive = None
  ∧ follows (world_of (unfollow env_open alice post true world_followed))
      !! 2%positive = Some (follow_row bob post true true).
Proof.
  assert (Hr : isRegistered env_open (model post) = true) by reflexivity.
  split; [exact Hr|].
  split;
    [exact (unfollow_removes_the_pair_only env_open alice post true
              world_followed Hr 1%positive)
    |exact (unfollow_removes_the_pair_only env_open alice post true
              world_followed Hr 2%positive)].
Defined.

Lemma follow_then_unfollow_restores_witness :
  isRegistered env_open (model comment) = true
  ∧ pair_count alice comment world_followed = 0
  ∧ follows (world_of (unfollow env_open alice comment true
                         (world_of (follow env_open alice comment true false
                                      true world_followed))))
    = follows world_followed.
Proof.
  assert (Hr : isRegistered env_open (model comment) = true) by reflexivity.
  assert (H0 : pair_count alice comment world_followed = 0) by reflexivity.
  split; [exact Hr|]. split; [exact H0|].
  exact (follow_then_unfollow_restores env_open alice comment true false true
           true world_followed Hr H0).
Defined.

Lemma unfollow_then_follow_sets_flags_witness :
  isRegistered env_open (model post) = true
  ∧ pair_count alice post world_ambiguous = 2
  ∧ ∃ i,
      select (follows_of alice post)
        (follows (world_of (follow env_open alice post false false true
                              (world_of (unfollow env_open alice post false
                                           world_ambiguous)))))
      = [(i, follow_row alice post false true)].
Proof.
  assert (Hr : isRegistered env_open (model post) = true) by reflexivity.
  split; [exact Hr|]. split; [reflexivity|].
  exact (unfollow_then_follow_sets_flags env_open alice post false false
           false true world_ambiguous Hr).
Defined.

Lemma other_pairs_untouched_witness :
  (user_pk bob, pk post, model post) ≠ (user_pk alice, pk post, model post)
  ∧ pair_count bob post
      (world_of (unfollow env_open alice post true world_followed))
    = pair_count bob post world_followed.
Proof.
  assert (Hne : (user_pk bob, pk post, model post)
                ≠ (user_pk alice, pk post, model post))
    by (intros H; discriminate H).
  split; [exact Hne|].
  exact (proj1 (proj2 (other_pairs_untouched env_open alice post true true
                         false bob post world_followed Hne))).
Defined.

Lemma set_all_email_notifications_nothing_to_do_witness :
  map_Forall (λ _ f, user_id f = user_pk bob → send_email f = true)
    (follows world_followed)
  ∧ set_all_email_notifications bob true world_followed
    = (inr (), world_followed).
Proof.
  assert (H : map_Forall
                (λ _ f, user_id f = user_pk bob → send_email f = true)
                (follows world_followed))
    by (apply (bool_decide_unpack _); vm_compute; exact I).
  split; [exact H|].
  exact (set_all_email_notifications_nothing_to_do bob true world_followed
           H).
Defined.



Lemma send_email_notifications_one_batch_witness :
  outcome (send_email_notifications env_open post_action world0) = inr ()
  ∧ ∃ batch,
      outbox (world_of (send_email_notifications env_open post_action
                          world0))
      = outbox world0 ++ [batch]
      ∧ batch = [].
Proof.
  assert (Ho : outcome (send_email_notifications env_open post_action
                          world0) = inr ()) by reflexivity.
  split; [exact Ho|].
  destruct (send_email_notifications_one_batch env_open post_action world0
              Ho) as (batch & Hout & Hlen & _).
  exists batch. split; [exact Hout|].
  apply nil_length_inv. rewrite Hlen. vm_compute. reflexivity.
Defined.

Lemma notification_mails_witness :
  outcome (send_email_notifications env_open post_action world_followed)
  = inr ()
  ∧ ∃ batch,
      outbox (world_of (send_email_notifications env_open post_action
                          world_followed))
      = outbox world_followed ++ [batch]
      ∧ Forall
          (λ m : Mail,
             match last (subject m) with
             | Some c => isspace env_open c = false
             | None => True
             end)
          batch.
Proof.
  assert (Ho : outcome (send_email_notifications env_open post_action
                          world_followed) = inr ()) by reflexivity.
  split; [exact Ho|].
  destruct (notification_mails env_open post_action world_followed Ho)
    as (batch & Hout & HF).
  exists batch. split; [exact Hout|].
  eapply Forall_impl; [exact HF|]. intros m (_ & H & _). exact H.
Defined.
